(** * Config dashboard (server.py): a shallow embedding and its properties

    The development follows [server.py] top-down: the Python values that
    travel through it (JSON documents, form fields), the builtin coercions
    [float()], [int()] and [bool()] the model class relies on, the [Config]
    dataclass with [from_dict], the JSON file store, the bearer-token gate
    and the four request handlers.

    Conventions.
    - A Python [float] is an IEEE-754 binary64 number, written as a
      [spec_float] of the standard library ([prec = 53], [emax = 1024]).
    - A Python [dict] with string keys is a [gmap string _]; [{**a, **b}]
      is the union that prefers [b].
    - A Python [str] is a [string] of 8-bit characters; only the ASCII
      digits and the ASCII white space are recognised by the numeric
      parsers (Unicode digits and spaces are outside the model).
    - An exception is a value of [exn]; a computation that may raise
      returns a [result]; a computation that also reads or writes the
      store file is a function of the [disk].
    - The store file is seen through [json.loads]: its state is the
      document it decodes to, or the fact that it is absent or cannot be
      read or decoded.  Writing it is taken to succeed, and the
      interpreter's limit on the length of integer numerals is left out. *)

From Stdlib Require Import ZArith Ascii String List Bool Lia SpecFloat.
From stdpp Require Import base option strings gmap fin_maps.

Local Open Scope string_scope.
Local Open Scope Z_scope.

(** ** Python values *)

Set Warnings "-register-all".

Abbreviation float := spec_float (only parsing).

(** What [json.loads] can produce, and what a handler can put in a payload. *)
Inductive pyval : Type :=
  | PNone
  | PBool (b : bool)
  | PInt (z : Z)
  | PFloat (f : float)
  | PStr (s : string)
  | PList (l : list pyval)
  | PDict (d : gmap string pyval).

Abbreviation pydict := (gmap string pyval).

(** ** Exceptions and results *)

Inductive exn : Type :=
  | AttributeError
  | TypeError
  | ValueError
  | OverflowError
  | OSError
  | JSONDecodeError
  | IndexError
  | KeyError
  | HTTPException (code : Z).

Inductive result (A : Type) : Type :=
  | Ret (a : A)
  | Raise (e : exn).
Arguments Ret {A} a.
Arguments Raise {A} e.

(** Sequencing: the first exception raised ends the computation.  The
    instances give [result] the [x ← r; k] notation. *)
#[global] Instance result_ret : MRet result := fun _ a => Ret a.
#[global] Instance result_bind : MBind result := fun _ _ k r =>
  match r with
  | Ret a => k a
  | Raise e => Raise e
  end.

(** ** Characters and strings

    [float()] and [int()] skip the white space of C's [isspace] around a
    numeral; [str.strip()] additionally removes the four ASCII separator
    characters 0x1c .. 0x1f. *)

Definition code (c : ascii) : Z := Z.of_N (N_of_ascii c).

Definition is_digit (c : ascii) : bool := (48 <=? code c) && (code c <=? 57).
Definition digit_val (c : ascii) : Z := code c - 48.

Definition Py_ISSPACE (c : ascii) : bool :=
  ((9 <=? code c) && (code c <=? 13)) || (code c =? 32).

Definition Py_UNICODE_ISSPACE (c : ascii) : bool :=
  Py_ISSPACE c || ((28 <=? code c) && (code c <=? 31)).

Definition Py_TOLOWER (c : ascii) : ascii :=
  if (65 <=? code c) && (code c <=? 90)
  then ascii_of_N (N_of_ascii c + 32) else c.

Fixpoint lower (s : string) : string :=
  match s with
  | EmptyString => EmptyString
  | String c s' => String (Py_TOLOWER c) (lower s')
  end.

Section Strip.
Variable space : ascii → bool.

Fixpoint lstrip (s : string) : string :=
  match s with
  | String c s' => if space c then lstrip s' else s
  | EmptyString => EmptyString
  end.

(** Dropping the trailing white space: a character is kept when it is
    not a space or when something is kept after it. *)
Fixpoint rstrip (s : string) : string :=
  match s with
  | String c s' =>
      match rstrip s' with
      | EmptyString => if space c then EmptyString else String c EmptyString
      | t => String c t
      end
  | EmptyString => EmptyString
  end.

Definition strip (s : string) : string := rstrip (lstrip s).
End Strip.

(** [s.startswith(p)], and what follows the prefix when it is there. *)
Fixpoint strip_prefix (p s : string) : option string :=
  match p, s with
  | EmptyString, _ => Some s
  | String a p', String b s' => if Ascii.eqb a b then strip_prefix p' s' else None
  | String _ _, EmptyString => None
  end.

Definition startswith (s p : string) : bool :=
  match strip_prefix p s with Some _ => true | None => false end.

(** ** Numerals

    [digitpart ::= digit (["_"] digit)*]: a run of decimal digits in which
    single underscores may separate digits.  The scanner stops in front of
    the first character that cannot continue the run and hands it back. *)

Fixpoint more_digits (acc n : Z) (s : string) : Z * Z * string :=
  match s with
  | String c s' =>
      if is_digit c then more_digits (10 * acc + digit_val c) (n + 1) s'
      else if Ascii.eqb c "_" then
        match s' with
        | String d s'' =>
            if is_digit d then more_digits (10 * acc + digit_val d) (n + 1) s''
            else (acc, n, s)
        | EmptyString => (acc, n, s)
        end
      else (acc, n, s)
  | EmptyString => (acc, n, s)
  end.

(** The digits are appended to [acc]; the result is the number read, how
    many digits were read, and the rest of the input. *)
Definition digitpart (acc : Z) (s : string) : option (Z * Z * string) :=
  match s with
  | String c s' =>
      if is_digit c then Some (more_digits (10 * acc + digit_val c) 1 s') else None
  | EmptyString => None
  end.

(** An optional sign: [true] for ["-"]. *)
Definition sign (s : string) : bool * string :=
  match s with
  | String "-" s' => (true, s')
  | String "+" s' => (false, s')
  | _ => (false, s)
  end.

(** [int(s)] in base 10: white space, sign, digits, white space. *)
Definition int_of_str (s : string) : option Z :=
  let '(neg, body) := sign (strip Py_ISSPACE s) in
  match digitpart 0 body with
  | Some (n, _, EmptyString) => Some (if neg then - n else n)
  | _ => None
  end.

(** *** Decimal to binary64 *)

Definition prec : Z := 53.
Definition emax : Z := 1024.

(** The binary64 number nearest to [(-1)^neg * m * 10^e] (ties to even);
    too large a magnitude gives an infinity, too small a zero. *)
Definition decimal_to_float (neg : bool) (m e : Z) : float :=
  match m with
  | Zpos p =>
      if 0 <=? e then binary_round prec emax neg (Z.to_pos (Zpos p * 10 ^ e)) 0
      else SFdiv prec emax (S754_finite neg p 0)
                           (S754_finite false (Z.to_pos (10 ^ (- e))) 0)
  | _ => S754_zero neg
  end.

(** [exponent ::= ("e" | "E") [sign] digitpart], or nothing; in both cases
    the numeral has to end there. *)
Definition exponent (m e : Z) (s : string) : option (Z * Z) :=
  match s with
  | EmptyString => Some (m, e)
  | String c s' =>
      if Ascii.eqb (Py_TOLOWER c) "e" then
        let '(neg, t) := sign s' in
        match digitpart 0 t with
        | Some (x, _, EmptyString) => Some (m, e + (if neg then - x else x))
        | _ => None
        end
      else None
  end.

(** [floatnumber ::= ([digitpart] "." digitpart | digitpart ["."]) [exponent]]:
    the decimal mantissa and the power of ten. *)
Definition floatnumber (s : string) : option (Z * Z) :=
  match digitpart 0 s with
  | Some (m, _, rest) =>
      match rest with
      | String "." rest' =>
          match digitpart m rest' with
          | Some (m', n, rest'') => exponent m' (- n) rest''
          | None => exponent m 0 rest'
          end
      | _ => exponent m 0 rest
      end
  | None =>
      match s with
      | String "." rest' =>
          match digitpart 0 rest' with
          | Some (m', n, rest'') => exponent m' (- n) rest''
          | None => None
          end
      | _ => None
      end
  end.

(** [float(s)]: white space, sign, then [inf], [infinity] or [nan] in any
    case, or a decimal numeral. *)
Definition float_of_str (s : string) : option float :=
  let '(neg, body) := sign (strip Py_ISSPACE s) in
  let word := lower body in
  if String.eqb word "inf" || String.eqb word "infinity" then Some (S754_infinity neg)
  else if String.eqb word "nan" then Some S754_nan
  else '(m, e) ← floatnumber body; Some (decimal_to_float neg m e).

(** [float(n)] for an integer: the nearest binary64 number, an
    [OverflowError] when that is out of range. *)
Definition float_of_int (n : Z) : result float :=
  match binary_normalize prec emax n 0 false with
  | S754_infinity _ => Raise OverflowError
  | f => Ret f
  end.

(** [int(f)] for a float: the integral part (rounding toward zero). *)
Definition int_of_float (f : float) : result Z :=
  match f with
  | S754_zero _ => Ret 0
  | S754_finite s m e => Ret (cond_Zopp s (Z.shiftl (Zpos m) e))
  | S754_infinity _ => Raise OverflowError
  | S754_nan => Raise ValueError
  end.

(** ** The builtin coercions [float()], [int()] and [bool()] *)

Definition py_float (v : pyval) : result float :=
  match v with
  | PFloat f => Ret f
  | PInt n => float_of_int n
  | PBool b => float_of_int (if b then 1 else 0)
  | PStr s => match float_of_str s with Some f => Ret f | None => Raise ValueError end
  | PNone | PList _ | PDict _ => Raise TypeError
  end.

Definition py_int (v : pyval) : result Z :=
  match v with
  | PInt n => Ret n
  | PBool b => Ret (if b then 1 else 0)
  | PFloat f => int_of_float f
  | PStr s => match int_of_str s with Some n => Ret n | None => Raise ValueError end
  | PNone | PList _ | PDict _ => Raise TypeError
  end.

(** Truth value testing: [None], [False], zeros and empty containers are
    false, everything else is true. *)
Definition py_bool (v : pyval) : bool :=
  match v with
  | PNone => false
  | PBool b => b
  | PInt n => negb (n =? 0)
  | PFloat (S754_zero _) => false
  | PFloat _ => true
  | PStr s => negb (String.eqb s "")
  | PList l => match l with [] => false | _ => true end
  | PDict d => negb (bool_decide (d = ∅))
  end.

(** ** Model: the [Config] dataclass *)

Record Config : Type := mkConfig {
  ratio : float;
  min_coins : float;
  min_ratio : float;
  min_sec_left : Z;
  alert_enabled : bool;
}.

(** The float literals [1.5] and [100.0] of the class body. *)
Definition lit_1_5 : float := Eval vm_compute in decimal_to_float false 15 (-1).
Definition lit_100_0 : float := Eval vm_compute in decimal_to_float false 1000 (-1).

(** [Config()]: every field at its default. *)
Definition Config_defaults : Config :=
  {| ratio := lit_1_5; min_coins := lit_100_0; min_ratio := lit_1_5;
     min_sec_left := 20; alert_enabled := true |}.

(** [dataclasses.asdict]. *)
Definition asdict (c : Config) : pydict :=
  <["ratio" := PFloat (ratio c)]>
  (<["min_coins" := PFloat (min_coins c)]>
  (<["min_ratio" := PFloat (min_ratio c)]>
  (<["min_sec_left" := PInt (min_sec_left c)]>
  (<["alert_enabled" := PBool (alert_enabled c)]> ∅)))).

(** [d.get(k, default)]: only a dict has the method. *)
Definition dict_get (d : pyval) (k : string) (dflt : pyval) : result pyval :=
  match d with
  | PDict m => Ret (default dflt (m !! k))
  | _ => Raise AttributeError
  end.

(** [d[k]]. *)
Definition getitem (m : pydict) (k : string) : result pyval :=
  match m !! k with
  | Some v => Ret v
  | None => Raise KeyError
  end.

(** [{k: d.get(k, base[k]) for k in base.keys()}]. *)
Definition get_each (d : pyval) (base : pydict) : result pydict :=
  match d with
  | PDict m => Ret (map_imap (λ k dflt, Some (default dflt (m !! k))) base)
  | _ => Raise AttributeError   (* at the first key: [base] is never empty *)
  end.

(** [Config.from_dict]. *)
Definition from_dict (d : pyval) : result Config :=
  let base := asdict Config_defaults in
  upd ← get_each d base;
  let base := upd ∪ base in
  (* normalize types *)
  v ← getitem base "ratio"; r ← py_float v;
  let base := <["ratio" := PFloat r]> base in
  v ← getitem base "min_coins"; c ← py_float v;
  let base := <["min_coins" := PFloat c]> base in
  v ← getitem base "min_ratio"; m ← py_float v;
  let base := <["min_ratio" := PFloat m]> base in
  v ← getitem base "min_sec_left"; n ← py_int v;
  let base := <["min_sec_left" := PInt n]> base in
  v ← getitem base "alert_enabled";
  let a := py_bool v in
  (* the record is built from the entries of [base] *)
  Ret (mkConfig r c m n a).

(** ** Storage

    The store file, as far as the program can tell: it is not there, or it
    is there and reading and decoding it ([json.loads] of [read_text])
    either gives a JSON document or raises (a file that cannot be read,
    bytes that are not UTF-8, text that is not JSON). *)
Inductive disk : Type :=
  | NoFile
  | File (content : result pyval).

(** A computation that uses the store file: it returns or raises, and
    leaves the file in some state either way. *)
Definition io (A : Type) : Type := disk → result A * disk.

#[global] Instance io_ret : MRet io := fun _ a d => (Ret a, d).
#[global] Instance io_bind : MBind io := fun _ _ k m d =>
  match m d with
  | (Ret a, d') => k a d'
  | (Raise e, d') => (Raise e, d')
  end.

(** A computation that does not touch the file. *)
Definition pure {A} (r : result A) : io A := fun d => (r, d).

Definition file_exists : io bool :=
  fun d => (Ret (match d with NoFile => false | File _ => true end), d).

Definition read_json : io pyval :=
  fun d => (match d with NoFile => Raise OSError | File c => c end, d).

(** [try: m except Exception: return h]. *)
Definition try_except {A} (m : io A) (h : A) : io A :=
  fun d => match m d with
           | (Ret a, d') => (Ret a, d')
           | (Raise _, d') => (Ret h, d')
           end.

Definition _load_store : io pyval :=
  ex ← file_exists;
  if negb ex then mret (PDict ∅)
  else try_except read_json (PDict ∅).

(** [write_text(json.dumps(store))]: the file now decodes to [store]. *)
Definition _save_store (store : pyval) : io unit :=
  fun _ => (Ret (), File (Ret store)).

(** [{**v}]: only a mapping can be unpacked. *)
Definition unpack (v : pyval) : result pydict :=
  match v with
  | PDict m => Ret m
  | _ => Raise TypeError
  end.

(** [store[k] = v]. *)
Definition setitem (store : pyval) (k : string) (v : pyval) : result pyval :=
  match store with
  | PDict m => Ret (PDict (<[k := v]> m))
  | _ => Raise TypeError
  end.

(** [a or b]: [b] is evaluated only when [a] is false. *)
Definition py_or (a : pyval) (b : result pyval) : result pyval :=
  if py_bool a then Ret a else b.

Section Server.
(** The two settings read from the environment at start-up. *)
Variable DEFAULT_CUSTOMER_ID : string.
Variable ADMIN_TOKEN : option string.

Definition get_cfg (customer_id : string) : io Config :=
  store ← _load_store;
  raw ← pure (a ← dict_get store customer_id PNone;
              py_or a (b ← dict_get store DEFAULT_CUSTOMER_ID PNone;
                       py_or b (Ret (PDict ∅))));
  pure (from_dict raw).

Definition set_cfg (customer_id : string) (data : pyval) : io Config :=
  store ← _load_store;
  merged ← pure (old ← dict_get store customer_id (PDict ∅);
                 a ← unpack old; b ← unpack data; Ret (b ∪ a));
  cfg ← pure (from_dict (PDict merged));
  store ← pure (setitem store customer_id (PDict (asdict cfg)));
  _save_store store;;
  mret cfg.

(** *** Auth *)

(** What a handler sees of a request: the [Authorization] header, the
    [customer_id] query argument, the body as [get_json(silent=True)]
    gives it ([None] when there is no JSON body) and the form fields. *)
Record request : Type := mkRequest {
  authorization : option string;
  args_customer_id : option string;
  json_body : option pyval;
  form : gmap string string;
}.

(** [not ADMIN_TOKEN]: unset or empty. *)
Definition token_unset : bool :=
  match ADMIN_TOKEN with
  | None => true
  | Some t => String.eqb t ""
  end.

(** [s.split(" ", 1)]: cut at the first space, if there is one. *)
Fixpoint split1 (s : string) : list string :=
  match s with
  | EmptyString => [EmptyString]
  | String c s' =>
      if Ascii.eqb c " " then [EmptyString; s']
      else match split1 s' with
           | h :: t => String c h :: t
           | [] => [String c EmptyString]
           end
  end.

(** [l[i]]. *)
Definition index (l : list string) (i : nat) : result string :=
  match l !! i with
  | Some x => Ret x
  | None => Raise IndexError
  end.

(** [abort(code)]. *)
Definition abort {A} (code : Z) : result A := Raise (HTTPException code).

Definition _require_auth (req : request) : result unit :=
  if token_unset then Ret ()   (* open server (not recommended) *)
  else
    let auth := default "" (authorization req) in
    if negb (startswith auth "Bearer ") then abort 401
    else
      rest ← index (split1 auth) 1;
      let token := strip Py_UNICODE_ISSPACE rest in
      if negb (bool_decide (Some token = ADMIN_TOKEN)) then abort 403
      else Ret ().

(** *** API *)

Definition api_get_config (req : request) : io pydict :=
  let customer_id := default DEFAULT_CUSTOMER_ID (args_customer_id req) in
  cfg ← get_cfg customer_id;
  mret (asdict cfg).

(** The JSON answer of a successful update: [ok], [customer_id], [config]. *)
Definition api_update_config (req : request) : io (bool * string * pydict) :=
  pure (_require_auth req);;
  let customer_id := default DEFAULT_CUSTOMER_ID (args_customer_id req) in
  let payload :=
    match json_body req with
    | Some v => if py_bool v then v else PDict ∅
    | None => PDict ∅
    end in
  cfg ← set_cfg customer_id payload;
  mret (true, customer_id, asdict cfg).

(** *** HTML *)

(** A form field as a Python value: [form.get(k)]. *)
Definition form_get (f : gmap string string) (k : string) : pyval :=
  match f !! k with
  | Some s => PStr s
  | None => PNone
  end.

(** [x in ("1", "true", "True")]. *)
Definition is_on (v : pyval) : bool :=
  match v with
  | PStr s => String.eqb s "1" || String.eqb s "true" || String.eqb s "True"
  | _ => false
  end.

(** [v not in (None, "")]. *)
Definition not_blank (v : pyval) : bool :=
  match v with
  | PNone => false
  | PStr s => negb (String.eqb s "")
  | _ => true
  end.

(** The form is rendered from the record; its page is out of scope. *)
Definition html_get_form (req : request) : io (Config * string) :=
  let customer_id := default DEFAULT_CUSTOMER_ID (args_customer_id req) in
  cfg ← get_cfg customer_id;
  mret (cfg, customer_id).

(** The dict built from the form, before the blank values are removed. *)
Definition form_data (f : gmap string string) : pydict :=
  <["ratio" := form_get f "ratio"]>
  (<["min_ratio" := form_get f "min_ratio"]>
  (<["min_coins" := form_get f "min_coins"]>
  (<["min_sec_left" := form_get f "min_sec_left"]>
  (<["alert_enabled" := PBool (is_on (form_get f "alert_enabled"))]> ∅)))).

(** Answers with a redirection to the form of [customer_id]. *)
Definition html_post_form (req : request) : io string :=
  pure (_require_auth req);;
  let customer_id := default DEFAULT_CUSTOMER_ID (form req !! "customer_id") in
  let data := form_data (form req) in
  (* drop None / empty *)
  let data := filter (λ kv, not_blank kv.2 = true) data in
  cfg ← set_cfg customer_id (PDict data);
  mret customer_id.
End Server.

(** ** Health and routing *)

(** What a handler answers with: the JSON of a record, the JSON of a
    successful update, the form page of a customer (its markup is the
    template's affair), or a redirection to the form of a customer. *)
Inductive response : Type :=
  | Json (body : pydict)
  | JsonOk (customer_id : string) (config : pydict)
  | Page (cfg : Config) (customer_id : string)
  | Redirect (customer_id : string).

(** The routes the decorators declare. *)
Inductive route : Type :=
  | GET_api_config
  | POST_api_config
  | GET_config
  | POST_config
  | GET_root.

Section Routes.
Variable DEFAULT_CUSTOMER_ID : string.
Variable ADMIN_TOKEN : option string.

Definition root : io response := mret (Redirect DEFAULT_CUSTOMER_ID).

(** The handler of a route, with its answer. *)
Definition dispatch (r : route) (req : request) : io response :=
  match r with
  | GET_api_config =>
      body ← api_get_config DEFAULT_CUSTOMER_ID req; mret (Json body)
  | POST_api_config =>
      '(_, customer_id, config) ← api_update_config DEFAULT_CUSTOMER_ID ADMIN_TOKEN req;
      mret (JsonOk customer_id config)
  | GET_config =>
      '(cfg, customer_id) ← html_get_form DEFAULT_CUSTOMER_ID req;
      mret (Page cfg customer_id)
  | POST_config =>
      customer_id ← html_post_form DEFAULT_CUSTOMER_ID ADMIN_TOKEN req;
      mret (Redirect customer_id)
  | GET_root => root
  end.

(** Requests served one after the other, each to its end; a request that
    raises is answered with an error and the next one is served. *)
Definition serve (calls : list (route * request)) (d : disk) : disk :=
  foldl (λ d' call, (dispatch call.1 call.2 d').2) d calls.
End Routes.

(** ** The form page

    Of [FORM_HTML], the two [value] attributes whose text does not go
    through the printing of a float: the one of [alert_enabled] and the
    one of [min_sec_left], which is [str()] of an integer. *)

(** The character of a decimal digit. *)
Definition digit_char (n : Z) : ascii := ascii_of_N (Z.to_N (48 + n)).

(** The decimal digits of [n], most significant first, in front of
    [tail]; [fuel] bounds their number. *)
Fixpoint digits_of (fuel : nat) (n : Z) (tail : string) : string :=
  match fuel with
  | O => tail
  | S fuel' =>
      let tail' := String (digit_char (n mod 10)) tail in
      if n <? 10 then tail' else digits_of fuel' (n / 10) tail'
  end.

(** [str(n)] for an integer: a minus sign when negative, then the
    decimal digits without leading zeros. *)
Definition str_of_int (n : Z) : string :=
  if n <? 0 then String "-" (digits_of (S (Z.to_nat (Z.log2 (- n)))) (- n) "")
  else digits_of (S (Z.to_nat (Z.log2 n))) n "".

(** [{{ '1' if cfg.alert_enabled else '0' }}]. *)
Definition value_alert_enabled (cfg : Config) : string :=
  if alert_enabled cfg then "1" else "0".

(** [{{ cfg.min_sec_left }}]. *)
Definition value_min_sec_left (cfg : Config) : string :=
  str_of_int (min_sec_left cfg).

(** * Vocabulary of the statements *)

Implicit Types (d : disk) (t m old data : pydict) (c cfg : Config).
Implicit Types (dflt id k : string) (v : pyval) (e : exn).

(** The table a handler works on, whatever the state of the file. *)
Definition loaded d : pyval :=
  match d with
  | File (Ret v) => v
  | _ => PDict ∅
  end.

(** The raw value [from_dict] coerces for field [k]. *)
Definition raw_field m k (dflt_v : pyval) : pyval := default dflt_v (m !! k).

(** The raw record [get_cfg] hands to [from_dict]. *)
Definition chosen dflt id t : pyval :=
  let a := default PNone (t !! id) in
  if py_bool a then a
  else let b := default PNone (t !! dflt) in
       if py_bool b then b else PDict ∅.

(** The file is absent, or reading and decoding it raises. *)
Inductive unusable : disk → Prop :=
  | unusable_absent : unusable NoFile
  | unusable_raises e : unusable (File (Raise e)).

(** The float [2.0]. *)
Definition lit_2_0 : float := Eval vm_compute in decimal_to_float false 20 (-1).

(** The defaults with the ratio set to 2.0. *)
Definition cfg_ratio_2 : Config :=
  {| ratio := lit_2_0; min_coins := lit_100_0; min_ratio := lit_1_5;
     min_sec_left := 20; alert_enabled := true |}.

(** The table as the program leaves it after the default customer's
    ratio was set to 2.0 on an empty store. *)
Definition table_default_2 : pydict := {[ "DEFAULT" := PDict (asdict cfg_ratio_2) ]}.

(** The numeric fields, in the order [from_dict] coerces them. *)
Definition coercion_order : list string :=
  ["ratio"; "min_coins"; "min_ratio"; "min_sec_left"].

(** The default [from_dict] falls back on for a key that is missing. *)
Definition default_raw k : pyval := default PNone (asdict Config_defaults !! k).

(** What coercing the raw value [v] for field [k] raises, if anything:
    [float()] for the three float fields, [int()] for [min_sec_left];
    [bool()] never raises, and a key that is no field is not coerced. *)
Definition coercion_error k v : option exn :=
  if bool_decide (k ∈ ["ratio"; "min_coins"; "min_ratio"]) then
    match py_float v with Raise e => Some e | Ret _ => None end
  else if bool_decide (k = "min_sec_left") then
    match py_int v with Raise e => Some e | Ret _ => None end
  else None.

(** The first field among [ks] whose raw value in [m] fails to coerce. *)
Fixpoint first_error m (ks : list string) : option (string * exn) :=
  match ks with
  | [] => None
  | k :: ks' =>
      match coercion_error k (raw_field m k (default_raw k)) with
      | Some e => Some (k, e)
      | None => first_error m ks'
      end
  end.

(** The fields coerced before [k]. *)
Fixpoint fields_before k (ks : list string) : list string :=
  match ks with
  | [] => []
  | k' :: ks' => if bool_decide (k' = k) then [] else k' :: fields_before k ks'
  end.

(** The integral part of [(-1)^sg * mant * 2^ex], as the quotient rounded
    toward zero of its numerator by its denominator. *)
Definition integral_part (sg : bool) (mant : positive) (ex : Z) : Z :=
  (cond_Zopp sg (Zpos mant) * 2 ^ Z.max ex 0) ÷ 2 ^ Z.max (- ex) 0.

(** The float [f] is the integer [n], exactly: a zero for 0, otherwise a
    finite float [(-1)^sg * mant * 2^ex] with [ex <= 0] whose mantissa is
    [n] scaled by [2^(-ex)]. *)
Definition float_is_int (f : float) (n : Z) : Prop :=
  match f with
  | S754_zero _ => n = 0
  | S754_finite sg mant ex => ex ≤ 0 ∧ cond_Zopp sg (Zpos mant) = n * 2 ^ (- ex)
  | _ => False
  end.

(** The floats of the scenario: the JSON numbers [10.9] and [50.0]. *)
Definition lit_10_9 : float := Eval vm_compute in decimal_to_float false 109 (-1).
Definition lit_50_0 : float := Eval vm_compute in decimal_to_float false 500 (-1).

(** The scenario of the store that starts empty:
    [update("DEFAULT", {min_coins: 50, min_sec_left: 10.9})]. *)
Definition scenario_data : pydict :=
  {[ "min_coins" := PInt 50; "min_sec_left" := PFloat lit_10_9 ]}.

Definition scenario_cfg : Config :=
  {| ratio := lit_1_5; min_coins := lit_50_0; min_ratio := lit_1_5;
     min_sec_left := 10; alert_enabled := true |}.

(** The five declared fields of [Config]. *)
Definition fields : list string :=
  ["ratio"; "min_coins"; "min_ratio"; "min_sec_left"; "alert_enabled"].

(** What [html_post_form] hands to [set_cfg]: the form fields without
    those that are [None] or empty. *)
Definition posted (f : gmap string string) : pydict :=
  filter (λ kv, not_blank kv.2 = true) (form_data f).

(** A stored record, complete as [set_cfg] writes it. *)
Definition table_bob : pydict := {[ "bob" := PDict (asdict Config_defaults) ]}.



(** The token a header presents: all that follows ["Bearer "].  A header
    that is missing or does not start with ["Bearer "] presents none. *)
Definition presented_token (hdr : option string) : option string :=
  h ← hdr; strip_prefix "Bearer " h.


(** A JSON object, as opposed to any other document. *)
Definition is_dict v : bool :=
  match v with
  | PDict _ => true
  | _ => false
  end.

(** Every entry of the table is a record as [set_cfg] writes it. *)
Definition complete_table t : Prop :=
  ∀ id v, t !! id = Some v → ∃ c, v = PDict (asdict c).

(** The store file holds such a table (or none at all). *)
Definition well_kept d : Prop :=
  ∃ t, _load_store d = (Ret (PDict t), d) ∧ complete_table t.

(** The first and the last character of a string. *)
Definition first_char (s : string) : option ascii :=
  match s with
  | String c _ => Some c
  | EmptyString => None
  end.

Fixpoint last_char (s : string) : option ascii :=
  match s with
  | EmptyString => None
  | String c EmptyString => Some c
  | String _ s' => last_char s'
  end.

(** White space only. *)
Fixpoint blank (s : string) : bool :=
  match s with
  | EmptyString => true
  | String c s' => Py_UNICODE_ISSPACE c && blank s'
  end.

(** No character of the string is white space for [int()]. *)
Fixpoint spaceless (s : string) : bool :=
  match s with
  | EmptyString => true
  | String ch s' => negb (Py_ISSPACE ch) && spaceless s'
  end.

(** * Properties *)

(** ** Unfolding the two monads *)

Lemma rbind_Ret {A B} (a : A) (k : A → result B) : (Ret a ≫= k) = k a.
Proof. reflexivity. Qed.

Lemma rbind_Raise {A B} e (k : A → result B) : (Raise e ≫= k) = Raise e.
Proof. reflexivity. Qed.

Lemma io_bind_eq {A B} (m : io A) (k : A → io B) d :
  (m ≫= k) d =
  match m d with (Ret a, d') => k a d' | (Raise e, d') => (Raise e, d') end.
Proof. reflexivity. Qed.

Lemma io_bind_pure_Ret {A B} (a : A) (k : A → io B) d :
  (pure (Ret a) ≫= k) d = k a d.
Proof. reflexivity. Qed.

Lemma io_bind_pure_Raise {A B} e (k : A → io B) d :
  (pure (Raise e) ≫= k) d = (Raise e, d).
Proof. reflexivity. Qed.

(** ** Numerals, on examples *)

Example float_of_str_examples :
  float_of_str " -1_0.25e-1 " = Some (S754_finite true 4616189618054758 (-52))
  ∧ float_of_str "0.1" = Some (S754_finite false 7205759403792794 (-56))
  ∧ float_of_str "9007199254740993" = Some (S754_finite false 4503599627370496 1)
  ∧ float_of_str "1e400" = Some (S754_infinity false)
  ∧ float_of_str "2.4e-324" = Some (S754_zero false)
  ∧ float_of_str "-InFiNiTy" = Some (S754_infinity true)
  ∧ float_of_str "nan" = Some S754_nan
  ∧ float_of_str "5." = float_of_str ".5e1"
  ∧ float_of_str "abc" = None
  ∧ float_of_str "" = None
  ∧ float_of_str "1_" = None
  ∧ float_of_str "1e" = None
  ∧ float_of_str "." = None.
Proof. repeat split; reflexivity. Qed.

Example int_of_str_examples :
  int_of_str " +1_000 " = Some 1000
  ∧ int_of_str "-007" = Some (-7)
  ∧ int_of_str "10.9" = None
  ∧ int_of_str "1e3" = None
  ∧ int_of_str "" = None.
Proof. repeat split; reflexivity. Qed.

Example float_of_int_examples :
  float_of_int 50 = Ret (S754_finite false 7036874417766400 (-47))
  ∧ float_of_int 0 = Ret (S754_zero false)
  ∧ float_of_int (10 ^ 400) = Raise OverflowError.
Proof. repeat split; reflexivity. Qed.

(** ** The store file *)

Lemma _load_store_loaded d : _load_store d = (Ret (loaded d), d).
Proof. by destruct d as [|[v|e]]. Qed.

Lemma io_bind_load {B} (k : pyval → io B) d :
  (_load_store ≫= k) d = k (loaded d) d.
Proof. by rewrite io_bind_eq, _load_store_loaded. Qed.

Lemma loaded_table d t : _load_store d = (Ret (PDict t), d) → loaded d = PDict t.
Proof. rewrite _load_store_loaded. congruence. Qed.

(** ** [from_dict] field by field *)

Lemma from_dict_fields m :
  from_dict (PDict m) =
    r ← py_float (raw_field m "ratio" (PFloat lit_1_5));
    c ← py_float (raw_field m "min_coins" (PFloat lit_100_0));
    mr ← py_float (raw_field m "min_ratio" (PFloat lit_1_5));
    n ← py_int (raw_field m "min_sec_left" (PInt 20));
    Ret (mkConfig r c mr n (py_bool (raw_field m "alert_enabled" (PBool true)))).
Proof.
  unfold from_dict, get_each, getitem, raw_field. rewrite rbind_Ret.
  assert (Hl : ∀ k, (map_imap (λ k' dv, Some (default dv (m !! k')))
                       (asdict Config_defaults) ∪ asdict Config_defaults) !! k
                    = (λ dv, default dv (m !! k)) <$> asdict Config_defaults !! k).
  { intros k. rewrite lookup_union, map_lookup_imap.
    by destruct (asdict Config_defaults !! k). }
  rewrite Hl. change (asdict Config_defaults !! "ratio") with (Some (PFloat lit_1_5)).
  cbn [fmap option_fmap option_map]. rewrite rbind_Ret.
  destruct (py_float _) as [r|]; [rewrite rbind_Ret|done].
  rewrite lookup_insert_ne, Hl by done.
  change (asdict Config_defaults !! "min_coins") with (Some (PFloat lit_100_0)).
  cbn [fmap option_fmap option_map]. rewrite rbind_Ret.
  destruct (py_float _) as [c|]; [rewrite rbind_Ret|done].
  rewrite !lookup_insert_ne, Hl by done.
  change (asdict Config_defaults !! "min_ratio") with (Some (PFloat lit_1_5)).
  cbn [fmap option_fmap option_map]. rewrite rbind_Ret.
  destruct (py_float _) as [mr|]; [rewrite rbind_Ret|done].
  rewrite !lookup_insert_ne, Hl by done.
  change (asdict Config_defaults !! "min_sec_left") with (Some (PInt 20)).
  cbn [fmap option_fmap option_map]. rewrite rbind_Ret.
  destruct (py_int _) as [n|]; [rewrite rbind_Ret|done].
  rewrite !lookup_insert_ne, Hl by done.
  change (asdict Config_defaults !! "alert_enabled") with (Some (PBool true)).
  cbn [fmap option_fmap option_map]. by rewrite rbind_Ret.
Qed.

Lemma from_dict_empty : from_dict (PDict ∅) = Ret Config_defaults.
Proof. reflexivity. Qed.

(** A record written by [set_cfg] reads back as itself. *)
Lemma from_dict_asdict c : from_dict (PDict (asdict c)) = Ret c.
Proof. rewrite from_dict_fields. by destruct c. Qed.

Lemma asdict_nonempty c : asdict c ≠ ∅.
Proof. unfold asdict. apply insert_non_empty. Qed.

(** ** [get_cfg] and [set_cfg] over a table *)

Lemma get_cfg_table dflt id d t :
  loaded d = PDict t →
  get_cfg dflt id d = (from_dict (chosen dflt id t), d).
Proof.
  intros Ht. unfold get_cfg. rewrite io_bind_load, Ht. unfold chosen, dict_get, py_or.
  rewrite rbind_Ret. destruct (py_bool (default PNone (t !! id))); [done|].
  rewrite rbind_Ret. by destruct (py_bool (default PNone (t !! dflt))).
Qed.

(** [get_cfg] never writes. *)
Lemma get_cfg_reads dflt id d : (get_cfg dflt id d).2 = d.
Proof.
  unfold get_cfg. rewrite io_bind_load, io_bind_eq. unfold pure.
  by destruct (_ ≫= _); [destruct (from_dict _)|].
Qed.

(** What [set_cfg] does once the table and the customer's raw record are
    known: everything hinges on [from_dict] of the overlay. *)
Lemma set_cfg_table id d t old data :
  loaded d = PDict t →
  default (PDict ∅) (t !! id) = PDict old →
  set_cfg id (PDict data) d =
    match from_dict (PDict (data ∪ old)) with
    | Ret cfg => (Ret cfg, File (Ret (PDict (<[id := PDict (asdict cfg)]> t))))
    | Raise e => (Raise e, d)
    end.
Proof.
  intros Ht Hold. unfold set_cfg. rewrite io_bind_load, Ht.
  unfold dict_get. rewrite Hold, rbind_Ret. cbn [unpack].
  rewrite !rbind_Ret, io_bind_pure_Ret, io_bind_eq. unfold pure. by destruct (from_dict _).
Qed.

(** A failing [set_cfg] has not written. *)
Lemma set_cfg_raise id v d e d' :
  set_cfg id v d = (Raise e, d') → d' = d.
Proof.
  unfold set_cfg. rewrite io_bind_load, io_bind_eq. unfold pure at 1.
  destruct (_ ≫= _) as [merged|e1]; [|congruence].
  rewrite io_bind_eq. unfold pure at 1.
  destruct (from_dict _) as [cfg|e2]; [|congruence].
  rewrite io_bind_eq. unfold pure at 1.
  destruct (setitem _ _ _) as [st|e3]; [|congruence].
  discriminate.
Qed.

(** ** Resolving a customer's record *)

(** The literals of the class body are the floats Python reads from the
    same digits. *)
Example lit_1_5_reads : float_of_str "1.5" = Some lit_1_5.
Proof. reflexivity. Qed.

Example lit_100_0_reads : float_of_str "100.0" = Some lit_100_0.
Proof. reflexivity. Qed.

(** C4. When the table holds a record neither for the customer nor for the
    default customer, [get_cfg] returns exactly the defaults
    [ratio = 1.5], [min_coins = 100.0], [min_ratio = 1.5],
    [min_sec_left = 20], [alert_enabled = True], and the file is as it
    was. *)
Theorem get_cfg_all_defaults dflt id d t :
  _load_store d = (Ret (PDict t), d) →
  t !! id = None →
  t !! dflt = None →
  get_cfg dflt id d =
    (Ret {| ratio := lit_1_5; min_coins := lit_100_0; min_ratio := lit_1_5;
            min_sec_left := 20; alert_enabled := true |}, d).
Proof.
  intros Ht%loaded_table Hid Hdf. rewrite (get_cfg_table _ _ _ _ Ht).
  unfold chosen. by rewrite Hid, Hdf.
Qed.

Lemma get_cfg_all_defaults_witness :
  get_cfg "DEFAULT" "bob" NoFile = (Ret Config_defaults, NoFile).
Proof. by apply (get_cfg_all_defaults "DEFAULT" "bob" NoFile ∅). Defined.


(** C10. A stored record that is an empty field map counts as no record:
    [get_cfg] answers as it does on the table without that entry, which
    for another customer than the default one is the default customer's
    record when there is one. *)
Theorem get_cfg_empty_record dflt id d t :
  _load_store d = (Ret (PDict t), d) →
  t !! id = Some (PDict ∅) →
  get_cfg dflt id d = ((get_cfg dflt id (File (Ret (PDict (delete id t))))).1, d)
  ∧ (∀ rec, id ≠ dflt → t !! dflt = Some (PDict rec) →
       get_cfg dflt id d = (from_dict (PDict rec), d)).
Proof.
  intros Ht%loaded_table Hid.
  rewrite (get_cfg_table dflt id d t Ht).
  rewrite (get_cfg_table dflt id (File (Ret (PDict (delete id t)))) (delete id t) eq_refl).
  assert (Hch : chosen dflt id t = chosen dflt id (delete id t)).
  { unfold chosen. rewrite Hid, lookup_delete_eq. simpl.
    destruct (decide (id = dflt)) as [<-|Hne].
    - by rewrite Hid, lookup_delete_eq.
    - by rewrite lookup_delete_ne. }
  split; [by rewrite Hch|].
  intros rec Hne Hdf. f_equal. f_equal. unfold chosen. rewrite Hid, Hdf.
  simpl. rewrite (bool_decide_eq_true_2 (∅ = ∅)) by done. simpl.
  case_bool_decide as Hrec; [by subst|done].
Qed.

(** ** Loading from a file that cannot be used *)




(** A file that decodes to a JSON document which is no object is handed
    on as it is; [get_cfg] then fails on it. *)
Example load_store_list :
  _load_store (File (Ret (PList []))) = (Ret (PList []), File (Ret (PList [])))
  ∧ get_cfg "DEFAULT" "bob" (File (Ret (PList []))) =
      (Raise AttributeError, File (Ret (PList []))).
Proof. split; reflexivity. Qed.


Lemma get_cfg_empty_record_witness :
  let t : pydict := <["bob" := PDict ∅]> table_default_2 in
  let d := File (Ret (PDict t)) in
  t !! "bob" = Some (PDict ∅)
  ∧ get_cfg "DEFAULT" "bob" d = (Ret cfg_ratio_2, d).
Proof.
  intros t d. split; [reflexivity|].
  rewrite (proj2 (get_cfg_empty_record "DEFAULT" "bob" d t eq_refl eq_refl)
                 (asdict cfg_ratio_2)); [reflexivity|discriminate|reflexivity].
Defined.


(** ** Coercion failures *)

(** [from_dict] raises the error of the first field that fails, and
    returns a record when none does. *)
Lemma from_dict_first_error m :
  match first_error m coercion_order with
  | Some (_, e) => from_dict (PDict m) = Raise e
  | None => ∃ cfg, from_dict (PDict m) = Ret cfg
  end.
Proof.
  rewrite from_dict_fields. unfold coercion_order, first_error, coercion_error.
  change (default_raw "ratio") with (PFloat lit_1_5).
  change (default_raw "min_coins") with (PFloat lit_100_0).
  change (default_raw "min_ratio") with (PFloat lit_1_5).
  change (default_raw "min_sec_left") with (PInt 20).
  change (bool_decide ("ratio" ∈ _)) with true.
  change (bool_decide ("min_coins" ∈ _)) with true.
  change (bool_decide ("min_ratio" ∈ _)) with true.
  change (bool_decide ("min_sec_left" ∈ _)) with false.
  change (bool_decide ("min_sec_left" = _)) with true. cbv iota.
  destruct (py_float (raw_field m "ratio" _)); [rewrite rbind_Ret|done].
  destruct (py_float (raw_field m "min_coins" _)); [rewrite rbind_Ret|done].
  destruct (py_float (raw_field m "min_ratio" _)); [rewrite rbind_Ret|done].
  destruct (py_int (raw_field m "min_sec_left" _)); [rewrite rbind_Ret|done].
  by eexists.
Qed.

Lemma first_error_elem m ks k v e :
  k ∈ ks → m !! k = Some v → coercion_error k v = Some e →
  is_Some (first_error m ks).
Proof.
  intros Hk Hm He. induction ks as [|k' ks IH]; [by apply elem_of_nil in Hk|].
  cbn [first_error]. destruct (coercion_error k' _) eqn:Hk'; [done|].
  apply elem_of_cons in Hk as [->|Hk]; [|by apply IH].
  unfold raw_field in Hk'. rewrite Hm in Hk'. simpl in Hk'. congruence.
Qed.

Lemma coercion_error_field k v e : coercion_error k v = Some e → k ∈ coercion_order.
Proof.
  unfold coercion_error, coercion_order. intros H.
  destruct (decide (k ∈ ["ratio"; "min_coins"; "min_ratio"])) as [Hin|Hout].
  - rewrite !elem_of_cons in Hin. rewrite !elem_of_cons. tauto.
  - rewrite (bool_decide_eq_false_2 _ Hout) in H.
    destruct (decide (k = "min_sec_left")) as [->|Hne].
    + rewrite !elem_of_cons. tauto.
    + by rewrite (bool_decide_eq_false_2 _ Hne) in H.
Qed.

(** A failing [set_cfg] has raised before writing. *)
Lemma set_cfg_Raise id v d e :
  (set_cfg id v d).1 = Raise e → set_cfg id v d = (Raise e, d).
Proof.
  destruct (set_cfg id v d) as [r d'] eqn:H. simpl. intros ->.
  by rewrite (set_cfg_raise _ _ _ _ _ H).
Qed.

(** Either the table or the customer's stored entry is not a dict, and
    [set_cfg] raises at once, or both are. *)
Lemma set_cfg_shape id data d :
  (∃ e, set_cfg id (PDict data) d = (Raise e, d))
  ∨ (∃ t old, loaded d = PDict t ∧ default (PDict ∅) (t !! id) = PDict old).
Proof.
  destruct (loaded d) as [| | | | | |t] eqn:Ht;
    try (left; eexists; apply set_cfg_Raise; unfold set_cfg;
         rewrite io_bind_load, Ht; reflexivity).
  destruct (default (PDict ∅) (t !! id)) as [| | | | | |old] eqn:Hold;
    try (left; eexists; apply set_cfg_Raise; unfold set_cfg;
         rewrite io_bind_load, Ht; unfold dict_get; rewrite Hold; reflexivity).
  right. by exists t, old.
Qed.

(** A field that is present and fails its coercion makes [from_dict]
    raise: that failure, or the one of a field coerced earlier. *)
Lemma from_dict_raises m k v e :
  m !! k = Some v → coercion_error k v = Some e →
  ∃ e', from_dict (PDict m) = Raise e'.
Proof.
  intros Hm He.
  destruct (first_error_elem m coercion_order k v e
              (coercion_error_field _ _ _ He) Hm He) as [[k' e'] Hfe].
  pose proof (from_dict_first_error m) as Hfd. rewrite Hfe in Hfd. by exists e'.
Qed.

(** C5. When a field present in the payload fails its coercion, [set_cfg]
    raises and the file is exactly as before the call: nothing of the
    payload is applied, no record is written. *)
Theorem set_cfg_all_or_nothing id data d k v e :
  data !! k = Some v →
  coercion_error k v = Some e →
  ∃ e', set_cfg id (PDict data) d = (Raise e', d).
Proof.
  intros Hk He. destruct (set_cfg_shape id data d) as [?|(t & old & Ht & Hold)]; [done|].
  rewrite (set_cfg_table id d t old data Ht Hold).
  destruct (from_dict_raises (data ∪ old) k v e) as [e' Hfd]; [|done|].
  - by apply lookup_union_Some_l.
  - rewrite Hfd. by exists e'.
Qed.

Lemma set_cfg_all_or_nothing_witness :
  let d := File (Ret (PDict table_default_2)) in
  let data : pydict := {[ "ratio" := PFloat lit_1_5; "min_coins" := PStr "abc" ]} in
  ∃ e', set_cfg "DEFAULT" (PDict data) d = (Raise e', d).
Proof.
  intros d data.
  apply (set_cfg_all_or_nothing "DEFAULT" data d "min_coins" (PStr "abc") ValueError);
    reflexivity.
Defined.

(** ** Strings that are no numbers *)

(** Whatever [int()] reads, [float()] reads too. *)
Lemma int_of_str_float_of_str s n : int_of_str s = Some n → is_Some (float_of_str s).
Proof.
  unfold int_of_str, float_of_str.
  destruct (sign _) as [neg body].
  destruct (digitpart 0 body) as [[[z cnt] rest]|] eqn:Hd; [|done].
  destruct rest; [|done]. intros _.
  destruct (_ || _); [done|]. destruct (String.eqb _ "nan"); [done|].
  unfold floatnumber. rewrite Hd. by cbn.
Qed.

(** So a string [float()] rejects fails the coercion of every numeric
    field with a [ValueError]. *)
Lemma coercion_error_non_numeric k s :
  k ∈ coercion_order → float_of_str s = None →
  coercion_error k (PStr s) = Some ValueError.
Proof.
  intros Hk Hs.
  assert (Hi : int_of_str s = None).
  { destruct (int_of_str s) as [n|] eqn:Hn; [|done].
    apply int_of_str_float_of_str in Hn as [f Hf]. congruence. }
  unfold coercion_error, py_float, py_int. rewrite Hs, Hi.
  case_bool_decide as H1; [done|]. case_bool_decide as H2; [done|].
  exfalso. unfold coercion_order in Hk.
  rewrite !elem_of_cons, elem_of_nil in Hk. rewrite !elem_of_cons in H1. tauto.
Qed.

Lemma first_error_before m k e :
  k ∈ coercion_order →
  coercion_error k (raw_field m k (default_raw k)) = Some e →
  first_error m (fields_before k coercion_order) = None →
  first_error m coercion_order = Some (k, e).
Proof.
  intros Hk He. generalize coercion_order Hk. clear Hk.
  induction l as [|k' ks IH]; intros Hk; [by apply elem_of_nil in Hk|].
  cbn [fields_before first_error]. case_bool_decide as Hkk.
  - subst k'. by rewrite He.
  - cbn [first_error]. destruct (coercion_error k' _); [done|].
    apply elem_of_cons in Hk as [->|Hk]; [done|]. by apply IH.
Qed.

(** C6 (as the code has it). When the payload maps a numeric field to a
    string that is no number, [set_cfg] raises and writes nothing: there
    is no fall-back to the default.  The exception is a [ValueError]
    when the table and the customer's entry are dicts and the fields
    coerced before that one coerce; otherwise the earlier failure is
    raised. *)
Theorem set_cfg_non_numeric_string id data d k s :
  k ∈ coercion_order →
  data !! k = Some (PStr s) →
  float_of_str s = None →
  (∃ e, set_cfg id (PDict data) d = (Raise e, d))
  ∧ (∀ t old,
       _load_store d = (Ret (PDict t), d) →
       default (PDict ∅) (t !! id) = PDict old →
       first_error (data ∪ old) (fields_before k coercion_order) = None →
       set_cfg id (PDict data) d = (Raise ValueError, d)).
Proof.
  intros Hk Hd Hs. pose proof (coercion_error_non_numeric k s Hk Hs) as He.
  split.
  { destruct (set_cfg_shape id data d) as [?|(t & old & Ht & Hold)]; [done|].
    rewrite (set_cfg_table id d t old data Ht Hold).
    destruct (from_dict_raises (data ∪ old) k (PStr s) ValueError) as [e' ->];
      [by apply lookup_union_Some_l|done|by exists e']. }
  intros t old Ht%loaded_table Hold Hbefore.
  rewrite (set_cfg_table id d t old data Ht Hold).
  pose proof (from_dict_first_error (data ∪ old)) as Hfd.
  rewrite (first_error_before (data ∪ old) k ValueError) in Hfd; [by rewrite Hfd|done| |done].
  unfold raw_field. by rewrite (lookup_union_Some_l _ _ _ _ Hd).
Qed.

Lemma set_cfg_non_numeric_string_witness :
  let data : pydict := {[ "ratio" := PFloat lit_2_0; "min_sec_left" := PStr "soon" ]} in
  set_cfg "bob" (PDict data) NoFile = (Raise ValueError, NoFile).
Proof.
  intros data.
  apply (proj2 (set_cfg_non_numeric_string "bob" data NoFile "min_sec_left" "soon"
                  ltac:(by repeat constructor) eq_refl eq_refl) ∅ ∅); reflexivity.
Defined.

(** C6 as stated fails: with [ratio] mapped to [None] in the same payload,
    the non-numeric string for [min_coins] is never reached and the
    update raises a [TypeError], not a [ValueError]. *)
Lemma set_cfg_non_numeric_string_counterexample :
  let data : pydict := {[ "ratio" := PNone; "min_coins" := PStr "abc" ]} in
  data !! "min_coins" = Some (PStr "abc")
  ∧ float_of_str "abc" = None
  ∧ set_cfg "bob" (PDict data) NoFile = (Raise TypeError, NoFile)
  ∧ ¬ (∃ d', set_cfg "bob" (PDict data) NoFile = (Raise ValueError, d')).
Proof.
  intros data. repeat split; try reflexivity.
  intros [d' H]. vm_compute in H. discriminate H.
Qed.

(** ** Truncation of [min_sec_left] *)

Lemma int_of_float_finite sg mant ex :
  int_of_float (S754_finite sg mant ex) = Ret (integral_part sg mant ex).
Proof.
  unfold int_of_float, integral_part. f_equal.
  destruct (Z.le_gt_cases 0 ex) as [He|He].
  - rewrite Z.max_l, Z.max_r by lia. rewrite Z.shiftl_mul_pow2 by done.
    change (2 ^ 0) with 1. rewrite Z.quot_1_r. destruct sg; cbn [cond_Zopp]; lia.
  - rewrite Z.max_r, Z.max_l by lia. change (2 ^ 0) with 1. rewrite Z.mul_1_r.
    replace ex with (- - ex) at 1 by lia.
    rewrite Z.shiftl_opp_r, Z.shiftr_div_pow2 by lia.
    assert (0 < 2 ^ (- ex)) by (apply Z.pow_pos_nonneg; lia).
    destruct sg; cbn [cond_Zopp].
    + rewrite Z.quot_opp_l by lia. by rewrite Z.quot_div_nonneg by lia.
    + by rewrite Z.quot_div_nonneg by lia.
Qed.

Lemma coercion_error_float_None k v :
  k ∈ ["ratio"; "min_coins"; "min_ratio"] →
  coercion_error k v = None → ∃ f, py_float v = Ret f.
Proof.
  intros Hk. unfold coercion_error. rewrite bool_decide_eq_true_2 by done.
  destruct (py_float v); [by eexists|done].
Qed.

(** An update that gives [min_sec_left] as a finite float, over a table
    and a customer entry that are dicts, when the three float fields
    coerce. *)
Lemma set_cfg_float_seconds id data d t old sg mant ex :
  loaded d = PDict t →
  default (PDict ∅) (t !! id) = PDict old →
  data !! "min_sec_left" = Some (PFloat (S754_finite sg mant ex)) →
  first_error (data ∪ old) ["ratio"; "min_coins"; "min_ratio"] = None →
  ∃ cfg,
    set_cfg id (PDict data) d =
      (Ret cfg, File (Ret (PDict (<[id := PDict (asdict cfg)]> t))))
    ∧ min_sec_left cfg = integral_part sg mant ex
    ∧ (∀ n, data !! "min_coins" = Some (PInt n) →
         float_of_int n = Ret (min_coins cfg)).
Proof.
  intros Ht Hold Hsec Hfe.
  rewrite (set_cfg_table id d t old data Ht Hold), from_dict_fields.
  cbn [first_error] in Hfe.
  change (default_raw "ratio") with (PFloat lit_1_5) in Hfe.
  change (default_raw "min_coins") with (PFloat lit_100_0) in Hfe.
  change (default_raw "min_ratio") with (PFloat lit_1_5) in Hfe.
  destruct (coercion_error "ratio" _) eqn:E1; [done|].
  destruct (coercion_error "min_coins" _) eqn:E2; [done|].
  destruct (coercion_error "min_ratio" _) eqn:E3; [done|].
  apply coercion_error_float_None in E1 as [r Hr]; [|by repeat constructor].
  apply coercion_error_float_None in E2 as [c Hc]; [|by repeat constructor].
  apply coercion_error_float_None in E3 as [mr Hmr]; [|by repeat constructor].
  rewrite Hr, Hc, Hmr, !rbind_Ret.
  unfold raw_field in Hc |- *. rewrite (lookup_union_Some_l _ _ _ _ Hsec).
  cbn [default from_option Datatypes.id py_int].
  rewrite int_of_float_finite, rbind_Ret.
  eexists. split; [reflexivity|]. split; [reflexivity|].
  intros n Hn. cbn [min_coins].
  by rewrite (lookup_union_Some_l _ _ _ _ Hn) in Hc.
Qed.

Lemma first_error_floats m :
  first_error m coercion_order = None →
  first_error m ["ratio"; "min_coins"; "min_ratio"] = None.
Proof.
  unfold coercion_order. cbn [first_error].
  by repeat (destruct (coercion_error _ _); [done|]).
Qed.

(** ** Integers as floats *)

Lemma digits2_pos_iter (p sh : positive) :
  digits2_pos (Pos.iter xO p sh) = (digits2_pos p + sh)%positive.
Proof.
  induction sh as [|sh IH] using Pos.peano_ind.
  - cbn. lia.
  - rewrite Pos.iter_succ. cbn [digits2_pos]. rewrite IH. lia.
Qed.

Lemma Zpos_iter (p sh : positive) : Zpos (Pos.iter xO p sh) = Zpos p * 2 ^ Zpos sh.
Proof.
  induction sh as [|sh IH] using Pos.peano_ind.
  - cbn [Pos.iter]. lia.
  - rewrite Pos.iter_succ, Pos2Z.inj_xO, IH, Pos2Z.inj_succ, Z.pow_succ_r by lia. lia.
Qed.

Lemma digits2_pos_le (p : positive) : 2 ^ (Zpos (digits2_pos p) - 1) ≤ Zpos p.
Proof.
  induction p as [p IH|p IH|]; cbn [digits2_pos].
  - rewrite Pos2Z.inj_succ.
    replace (Z.succ (Zpos (digits2_pos p)) - 1)
      with (Z.succ (Zpos (digits2_pos p) - 1)) by lia.
    rewrite Z.pow_succ_r by lia. lia.
  - rewrite Pos2Z.inj_succ.
    replace (Z.succ (Zpos (digits2_pos p)) - 1)
      with (Z.succ (Zpos (digits2_pos p) - 1)) by lia.
    rewrite Z.pow_succ_r by lia. lia.
  - cbn. lia.
Qed.

Lemma digits2_pos_bound (p : positive) : Zpos p < 2 ^ 53 → Zpos (digits2_pos p) ≤ 53.
Proof.
  intros Hp. destruct (Z.le_gt_cases (Zpos (digits2_pos p)) 53) as [|Hgt]; [done|].
  exfalso. pose proof (digits2_pos_le p) as Hle.
  assert (2 ^ 53 ≤ 2 ^ (Zpos (digits2_pos p) - 1)) by (apply Z.pow_le_mono_r; lia).
  lia.
Qed.

(** Nothing is rounded away from a mantissa of 53 bits. *)
Lemma binary_round_aux_exact (sg : bool) (mant : positive) (ex : Z) :
  Zpos (digits2_pos mant) = 53 → -1074 ≤ ex ≤ 971 →
  binary_round_aux prec emax sg (Zpos mant) ex loc_Exact = S754_finite sg mant ex.
Proof.
  intros Hd He. unfold binary_round_aux, shr_fexp.
  cbn [Zdigits2 shr_record_of_loc]. rewrite Hd.
  assert (Hf : fexp prec emax (53 + ex) - ex = 0).
  { unfold fexp, emin, prec, emax. lia. }
  change (Z.sub (fexp prec emax (Z.add 53 ex)) ex) with (fexp prec emax (53 + ex) - ex).
  rewrite Hf. cbn [shr shr_m loc_of_shr_record round_nearest_even Zdigits2 shr_record_of_loc].
  rewrite Hd.
  change (Z.sub (fexp prec emax (Z.add 53 ex)) ex) with (fexp prec emax (53 + ex) - ex).
  rewrite Hf. cbn [shr shr_m].
  assert (Z.leb ex (Z.sub emax prec) = true) as ->
    by (apply Z.leb_le; unfold emax, prec; lia).
  reflexivity.
Qed.

Lemma binary_round_exact (sg : bool) (p : positive) :
  Zpos p < 2 ^ 53 →
  ∃ (mant : positive) (ex : Z),
    binary_round prec emax sg p 0 = S754_finite sg mant ex
    ∧ ex ≤ 0 ∧ Zpos mant = Zpos p * 2 ^ (- ex).
Proof.
  intros Hp. pose proof (digits2_pos_bound p Hp) as Hd.
  pose proof (Pos2Z.is_pos (digits2_pos p)) as Hd0.
  unfold binary_round.
  assert (Hf : fexp prec emax (Zpos (digits2_pos p) + 0) = Zpos (digits2_pos p) - 53).
  { unfold fexp, emin, prec, emax. lia. }
  change (Z.add (Zpos (digits2_pos p)) 0) with (Zpos (digits2_pos p) + 0).
  rewrite Hf. unfold shl_align.
  change (Z.sub (Zpos (digits2_pos p) - 53) 0) with (Zpos (digits2_pos p) - 53 - 0).
  destruct (Zpos (digits2_pos p) - 53 - 0) as [|q|q] eqn:Hq; try lia.
  - exists p, 0. rewrite binary_round_aux_exact by lia.
    split; [reflexivity|]. split; [lia|]. cbn. lia.
  - exists (Pos.iter xO p q), (Zpos (digits2_pos p) - 53).
    rewrite binary_round_aux_exact.
    + split; [reflexivity|]. split; [lia|]. rewrite Zpos_iter. f_equal. f_equal. lia.
    + rewrite digits2_pos_iter, Pos2Z.inj_add. lia.
    + lia.
Qed.

(** [float(n)] is [n] itself for an integer of at most 53 bits. *)
Lemma float_of_int_exact (n : Z) :
  Z.abs n < 2 ^ 53 → ∃ f, float_of_int n = Ret f ∧ float_is_int f n.
Proof.
  intros Hn. unfold float_of_int, binary_normalize. destruct n as [|p|p].
  - exists (S754_zero false). by split.
  - destruct (binary_round_exact false p Hn) as (mant & ex & -> & He & Hm).
    exists (S754_finite false mant ex). by split.
  - destruct (binary_round_exact true p Hn) as (mant & ex & -> & He & Hm).
    exists (S754_finite true mant ex). split; [done|]. split; [done|].
    cbn [cond_Zopp]. rewrite Hm. lia.
Qed.

(** C7. Whenever an update that gives [min_sec_left] as a finite float
    returns, the record it returns and the record it has written under
    the customer hold the integral part of that float, rounded toward
    zero (10.9 gives 10), as an integer; an integer given for
    [min_coins] is held as [float()] of it, which for an integer of at
    most 53 bits is the float of exactly that value (50 gives 50.0).
    And the update does return when the table and the customer's entry
    are dicts and the three float fields coerce. *)
Theorem set_cfg_truncates id data d sg mant ex :
  data !! "min_sec_left" = Some (PFloat (S754_finite sg mant ex)) →
  (∀ cfg d', set_cfg id (PDict data) d = (Ret cfg, d') →
     min_sec_left cfg = integral_part sg mant ex
     ∧ (∃ t', _load_store d' = (Ret (PDict t'), d')
              ∧ t' !! id = Some (PDict (asdict cfg)))
     ∧ asdict cfg !! "min_sec_left" = Some (PInt (integral_part sg mant ex))
     ∧ (∀ n, data !! "min_coins" = Some (PInt n) →
          float_of_int n = Ret (min_coins cfg)
          ∧ asdict cfg !! "min_coins" = Some (PFloat (min_coins cfg))
          ∧ (Z.abs n < 2 ^ 53 → float_is_int (min_coins cfg) n)))
  ∧ (∀ t old,
       _load_store d = (Ret (PDict t), d) →
       default (PDict ∅) (t !! id) = PDict old →
       first_error (data ∪ old) ["ratio"; "min_coins"; "min_ratio"] = None →
       ∃ cfg, set_cfg id (PDict data) d =
                (Ret cfg, File (Ret (PDict (<[id := PDict (asdict cfg)]> t))))).
Proof.
  intros Hsec. split.
  - intros cfg d' Hset.
    destruct (set_cfg_shape id data d) as [[e He]|(t & old & Ht & Hold)]; [congruence|].
    assert (Hfe : first_error (data ∪ old) coercion_order = None).
    { pose proof (from_dict_first_error (data ∪ old)) as Hfd.
      rewrite (set_cfg_table id d t old data Ht Hold) in Hset.
      destruct (first_error _ _) as [[k e]|]; [|done].
      rewrite Hfd in Hset. discriminate Hset. }
    destruct (set_cfg_float_seconds id data d t old sg mant ex Ht Hold Hsec
                (first_error_floats _ Hfe)) as (cfg0 & Hset0 & Hn & Hcoins).
    rewrite Hset0 in Hset. injection Hset as -> <-.
    split; [done|]. split.
    { eexists. split; [reflexivity|]. apply lookup_insert_eq. }
    split; [by rewrite <- Hn; destruct cfg|].
    intros n Hc. split; [by apply Hcoins|]. split; [by destruct cfg|].
    intros Hsmall. destruct (float_of_int_exact n Hsmall) as (f & Hf & Hexact).
    rewrite (Hcoins n Hc) in Hf. by injection Hf as ->.
  - intros t old Ht%loaded_table Hold Hfe.
    destruct (set_cfg_float_seconds id data d t old sg mant ex Ht Hold Hsec Hfe)
      as (cfg & Hset & _). by exists cfg.
Qed.

(** The scenario: 10.9 is stored as 10 and 50 as the float 50.0, the one
    read from the digits [50.0]. *)
Lemma set_cfg_truncates_witness :
  scenario_data !! "min_sec_left" = Some (PFloat lit_10_9)
  ∧ float_of_str "50.0" = Some lit_50_0
  ∧ ∃ cfg,
      set_cfg "DEFAULT" (PDict scenario_data) NoFile =
        (Ret cfg, File (Ret (PDict (<["DEFAULT" := PDict (asdict cfg)]> ∅))))
      ∧ min_sec_left cfg = 10
      ∧ asdict cfg !! "min_sec_left" = Some (PInt 10)
      ∧ min_coins cfg = lit_50_0
      ∧ asdict cfg !! "min_coins" = Some (PFloat lit_50_0)
      ∧ float_is_int (min_coins cfg) 50.
Proof.
  split; [reflexivity|]. split; [reflexivity|].
  destruct (set_cfg_truncates "DEFAULT" scenario_data NoFile
              false 6136154492292301 (-49) eq_refl) as [Hret Hruns].
  destruct (Hruns ∅ ∅ eq_refl eq_refl eq_refl) as [cfg Hset].
  destruct (Hret cfg _ Hset) as (Hsec & _ & Hstored & Hcoins).
  destruct (Hcoins 50 eq_refl) as (Hfloat & Hdict & Hexact).
  assert (Hfifty : min_coins cfg = lit_50_0).
  { change (float_of_int 50) with (Ret lit_50_0) in Hfloat.
    exact (f_equal (λ r, match r with Ret f => f | Raise _ => lit_50_0 end) (eq_sym Hfloat)). }
  exists cfg. split; [exact Hset|]. split; [exact Hsec|]. split; [exact Hstored|].
  split; [exact Hfifty|]. split; [rewrite <- Hfifty; exact Hdict|].
  apply Hexact. reflexivity.
Defined.

(** A fractional numeral that comes as a string, as a form field does,
    is not truncated: [int()] rejects it. *)
Example int_of_fractional_string : py_int (PStr "10.9") = Raise ValueError.
Proof. reflexivity. Qed.

Example scenario_update :
  set_cfg "DEFAULT" (PDict scenario_data) NoFile =
    (Ret scenario_cfg, File (Ret (PDict {[ "DEFAULT" := PDict (asdict scenario_cfg) ]}))).
Proof. reflexivity. Qed.

Example scenario_resolve :
  let d := (set_cfg "DEFAULT" (PDict scenario_data) NoFile).2 in
  get_cfg "DEFAULT" "anyone" d = (Ret scenario_cfg, d).
Proof. reflexivity. Qed.

Example float_50 : float_of_int 50 = Ret lit_50_0 ∧ float_of_str "50.0" = Some lit_50_0.
Proof. split; reflexivity. Qed.

Example int_10_9 : float_of_str "10.9" = Some lit_10_9 ∧ py_int (PFloat lit_10_9) = Ret 10.
Proof. split; reflexivity. Qed.

(** ** Payloads with unknown keys *)

(** [from_dict] looks at the five fields only. *)
Lemma from_dict_agree m m' :
  (∀ k, k ∈ fields → m !! k = m' !! k) →
  from_dict (PDict m) = from_dict (PDict m').
Proof.
  intros H. rewrite !from_dict_fields. unfold raw_field, fields in *.
  by rewrite !H by (rewrite !elem_of_cons; tauto).
Qed.

Lemma asdict_unknown c k : k ∉ fields → asdict c !! k = None.
Proof.
  unfold fields, asdict. rewrite !elem_of_cons, elem_of_nil. intros H.
  rewrite !lookup_insert_ne by (intros <-; tauto). apply lookup_empty.
Qed.

(** C1 (as the code has it). A payload whose keys are all unknown has no
    effect of its own: [set_cfg] writes under the customer the coerced,
    fully populated form of the customer's existing raw record (the
    defaults when there is none), and raises, writing nothing, when that
    record does not coerce.  No unknown key is stored.  When the stored
    record is already a record as [set_cfg] writes it, it is returned,
    the table is the same as before and so is every [get_cfg]. *)
Theorem set_cfg_unknown_keys dflt id data d t old :
  _load_store d = (Ret (PDict t), d) →
  default (PDict ∅) (t !! id) = PDict old →
  (∀ k, k ∈ fields → data !! k = None) →
  set_cfg id (PDict data) d =
    match from_dict (PDict old) with
    | Ret cfg => (Ret cfg, File (Ret (PDict (<[id := PDict (asdict cfg)]> t))))
    | Raise e => (Raise e, d)
    end
  ∧ (∀ cfg k, k ∉ fields → asdict cfg !! k = None)
  ∧ (∀ c, old = asdict c →
       set_cfg id (PDict data) d = (Ret c, File (Ret (PDict t)))
       ∧ ∀ id', get_cfg dflt id' (File (Ret (PDict t))) =
                ((get_cfg dflt id' d).1, File (Ret (PDict t)))).
Proof.
  intros Ht%loaded_table Hold Hdata.
  assert (Hset : set_cfg id (PDict data) d =
    match from_dict (PDict old) with
    | Ret cfg => (Ret cfg, File (Ret (PDict (<[id := PDict (asdict cfg)]> t))))
    | Raise e => (Raise e, d)
    end).
  { rewrite (set_cfg_table id d t old data Ht Hold).
    rewrite (from_dict_agree (data ∪ old) old); [done|].
    intros k Hk. by rewrite lookup_union_r by by apply Hdata. }
  split; [done|]. split; [intros cfg k; apply asdict_unknown|].
  intros c ->. rewrite Hset, from_dict_asdict.
  assert (Hid : t !! id = Some (PDict (asdict c))).
  { destruct (t !! id) as [v|]; [cbn in Hold; by subst|]. exfalso.
    apply (f_equal (λ v, match v with PDict m => m | _ => ∅ end)) in Hold.
    cbv beta iota in Hold. exact (asdict_nonempty c (eq_sym Hold)). }
  rewrite (insert_id _ _ _ Hid). split; [done|]. intros id'.
  by rewrite (get_cfg_table dflt id' d t Ht),
             (get_cfg_table dflt id' (File (Ret (PDict t))) t eq_refl).
Qed.

Lemma set_cfg_unknown_keys_witness :
  let d := File (Ret (PDict table_default_2)) in
  set_cfg "DEFAULT" (PDict {[ "bogus" := PInt 1 ]}) d = (Ret cfg_ratio_2, d)
  ∧ get_cfg "DEFAULT" "bob" d = (Ret cfg_ratio_2, d).
Proof.
  intros d.
  destruct (set_cfg_unknown_keys "DEFAULT" "DEFAULT" {[ "bogus" := PInt 1 ]} d
              table_default_2 (asdict cfg_ratio_2) eq_refl eq_refl) as (_ & _ & H).
  { intros k. unfold fields. rewrite !elem_of_cons, elem_of_nil.
    intros [->|[->|[->|[->|[->|[]]]]]]; reflexivity. }
  destruct (H cfg_ratio_2 eq_refl) as [Hset Hget]. split; [exact Hset|].
  pose proof (Hget "bob") as Hbob. subst d. rewrite Hbob. reflexivity.
Defined.

(** C1 as stated fails for a customer without a record of their own:
    the update with an unknown key writes an all-defaults record for
    them, and their [get_cfg] no longer follows the default customer. *)
Lemma set_cfg_unknown_keys_counterexample :
  let d := File (Ret (PDict table_default_2)) in
  let data : pydict := {[ "bogus" := PInt 1 ]} in
  let d' := (set_cfg "bob" (PDict data) d).2 in
  (∀ k, k ∈ fields → data !! k = None)
  ∧ (get_cfg "DEFAULT" "bob" d).1 = Ret cfg_ratio_2
  ∧ (get_cfg "DEFAULT" "bob" d').1 = Ret Config_defaults
  ∧ cfg_ratio_2 ≠ Config_defaults
  ∧ d' ≠ d.
Proof.
  intros d data d'. split; [|split; [reflexivity|split; [reflexivity|split]]].
  - intros k. unfold fields. rewrite !elem_of_cons, elem_of_nil.
    intros [->|[->|[->|[->|[->|[]]]]]]; reflexivity.
  - discriminate.
  - intros H. apply (f_equal (λ x, (get_cfg "DEFAULT" "bob" x).1)) in H.
    vm_compute in H. discriminate H.
Qed.

(** ** Overlaying the payload on the stored record *)

Lemma form_data_numeric f k :
  k ∈ coercion_order → form_data f !! k = Some (form_get f k).
Proof.
  unfold coercion_order. rewrite !elem_of_cons, elem_of_nil.
  intros [->|[->|[->|[->|[]]]]]; reflexivity.
Qed.

(** A numeric field that is missing from the form or left blank is not
    in the posted payload. *)
Lemma posted_blank f k :
  k ∈ coercion_order → f !! k = None ∨ f !! k = Some "" → posted f !! k = None.
Proof.
  intros Hk Hf. unfold posted. apply map_lookup_filter_None. right.
  intros v Hv. rewrite (form_data_numeric f k Hk) in Hv. injection Hv as <-.
  unfold form_get. by destruct Hf as [->| ->].
Qed.

(** C2 (as the code has it). [set_cfg] overlays the payload on the
    customer's stored record key by key: every key present in the
    payload overrides the stored value, whatever its value, and a key
    absent from it leaves the stored value.  Dropping the empty values
    is what the HTML form handler does before it calls [set_cfg]: a
    numeric field missing from the form or left blank is not in the
    payload, so the stored value stays in the overlay. *)
Theorem set_cfg_overlay id data d t old :
  _load_store d = (Ret (PDict t), d) →
  t !! id = Some (PDict old) →
  set_cfg id (PDict data) d =
    match from_dict (PDict (data ∪ old)) with
    | Ret cfg => (Ret cfg, File (Ret (PDict (<[id := PDict (asdict cfg)]> t))))
    | Raise e => (Raise e, d)
    end
  ∧ (∀ k v, data !! k = Some v → (data ∪ old) !! k = Some v)
  ∧ (∀ k, data !! k = None → (data ∪ old) !! k = old !! k)
  ∧ (∀ f k, k ∈ coercion_order → f !! k = None ∨ f !! k = Some "" →
       (posted f ∪ old) !! k = old !! k).
Proof.
  intros Ht%loaded_table Hid. split.
  { apply (set_cfg_table id d t old data Ht). by rewrite Hid. }
  split; [intros k v Hk; by apply lookup_union_Some_l|].
  split; [intros k Hk; by apply lookup_union_r|].
  intros f k Hk Hf. apply lookup_union_r. by apply posted_blank.
Qed.

(** The handler is [set_cfg] on the posted payload, behind the gate. *)
Lemma html_post_form_posted dflt tok req d :
  _require_auth tok req = Ret () →
  html_post_form dflt tok req d =
    let customer_id := default dflt (form req !! "customer_id") in
    match set_cfg customer_id (PDict (posted (form req))) d with
    | (Ret _, d') => (Ret customer_id, d')
    | (Raise e, d') => (Raise e, d')
    end.
Proof.
  intros Hauth. unfold html_post_form. rewrite Hauth, io_bind_pure_Ret.
  cbv zeta. rewrite io_bind_eq. fold (posted (form req)).
  by destruct (set_cfg _ _ d) as [[cfg|e] d'].
Qed.

Lemma set_cfg_overlay_witness :
  let d := File (Ret (PDict table_bob)) in
  let data : pydict := {[ "ratio" := PFloat lit_2_0 ]} in
  set_cfg "bob" (PDict data) d =
    (Ret cfg_ratio_2, File (Ret (PDict {[ "bob" := PDict (asdict cfg_ratio_2) ]})))
  ∧ (posted {[ "ratio" := ""; "min_coins" := "50" ]} ∪ asdict Config_defaults) !! "ratio"
    = Some (PFloat lit_1_5).
Proof.
  intros d data.
  destruct (set_cfg_overlay "bob" data d table_bob (asdict Config_defaults)
              eq_refl eq_refl) as (Hset & _ & _ & Hform).
  split; [rewrite Hset; reflexivity|].
  rewrite (Hform {[ "ratio" := ""; "min_coins" := "50" ]} "ratio");
    [reflexivity|by repeat constructor|by right].
Defined.

(** C2 as stated fails: an empty value in the payload does override.
    With [alert_enabled] stored as [True], the payload
    [{alert_enabled: ""}] stores [False]. *)
Lemma set_cfg_overlay_counterexample :
  let d := File (Ret (PDict table_bob)) in
  let data : pydict := {[ "alert_enabled" := PStr "" ]} in
  let off := {| ratio := lit_1_5; min_coins := lit_100_0; min_ratio := lit_1_5;
                min_sec_left := 20; alert_enabled := false |} in
  table_bob !! "bob" = Some (PDict (asdict Config_defaults))
  ∧ asdict Config_defaults !! "alert_enabled" = Some (PBool true)
  ∧ set_cfg "bob" (PDict data) d =
      (Ret off, File (Ret (PDict {[ "bob" := PDict (asdict off) ]})))
  ∧ asdict off !! "alert_enabled" = Some (PBool false).
Proof. intros d data off. repeat split; reflexivity. Qed.

(** ** The bearer-token gate *)

Lemma strip_prefix_Some p s rest : strip_prefix p s = Some rest → s = p +:+ rest.
Proof.
  revert s. induction p as [|a p IH]; intros s; simpl.
  - by intros [= ->].
  - destruct s as [|b s]; [done|].
    destruct (Ascii.eqb_spec a b) as [->|]; [|done]. intros H. by rewrite (IH s H).
Qed.

Lemma split1_bearer h rest :
  strip_prefix "Bearer " h = Some rest → index (split1 h) 1 = Ret rest.
Proof. intros ->%strip_prefix_Some. reflexivity. Qed.


Lemma _require_auth_no_bearer secret req :
  secret ≠ "" → presented_token (authorization req) = None →
  _require_auth (Some secret) req = Raise (HTTPException 401).
Proof.
  intros Hne%String.eqb_neq Hp. unfold _require_auth, token_unset, startswith.
  rewrite Hne. destruct (authorization req) as [h|]; [|done].
  cbn [presented_token mbind option_bind] in Hp.
  cbn [default from_option Datatypes.id]. by rewrite Hp.
Qed.

Lemma _require_auth_bearer secret req rest :
  secret ≠ "" → presented_token (authorization req) = Some rest →
  _require_auth (Some secret) req =
    if bool_decide (strip Py_UNICODE_ISSPACE rest = secret) then Ret ()
    else Raise (HTTPException 403).
Proof.
  intros Hne%String.eqb_neq Hp. unfold _require_auth, token_unset, startswith.
  rewrite Hne. destruct (authorization req) as [h|]; [|done].
  cbn [presented_token mbind option_bind] in Hp.
  cbn [default from_option Datatypes.id]. rewrite Hp. cbn [negb].
  rewrite (split1_bearer h rest Hp), rbind_Ret.
  destruct (String.eqb_spec (strip Py_UNICODE_ISSPACE rest) secret) as [->|Hno].
  - by rewrite !bool_decide_eq_true_2.
  - rewrite !bool_decide_eq_false_2; [done|done|congruence].
Qed.







Example gate_accepts :
  _require_auth (Some "changeme") (mkRequest (Some "Bearer changeme") None None ∅) = Ret ()
  ∧ _require_auth None (mkRequest None None None ∅) = Ret ()
  ∧ _require_auth (Some "changeme") (mkRequest None None None ∅) = Raise (HTTPException 401)
  ∧ _require_auth (Some "changeme") (mkRequest (Some "bearer changeme") None None ∅)
    = Raise (HTTPException 401)
  ∧ _require_auth (Some "changeme") (mkRequest (Some "Bearer change") None None ∅)
    = Raise (HTTPException 403).
Proof. repeat split; reflexivity. Qed.

(** * Further properties of the store *)

(** ** What a successful [set_cfg] has done *)

(** A payload that is no object makes [set_cfg] raise at once. *)
Lemma set_cfg_not_dict id v d :
  is_dict v = false → ∃ e, set_cfg id v d = (Raise e, d).
Proof.
  intros Hv.
  assert (H : ∃ e, (set_cfg id v d).1 = Raise e);
    [|destruct H as [e H]; exists e; by apply set_cfg_Raise].
  unfold set_cfg. rewrite io_bind_load.
  destruct (loaded d) as [| | | | | |t]; try by eexists.
  unfold dict_get.
  destruct (default (PDict ∅) (t !! id)) as [| | | | | |old]; try by eexists.
  destruct v; try done; by eexists.
Qed.

Lemma set_cfg_Ret id v d cfg d' :
  set_cfg id v d = (Ret cfg, d') →
  ∃ t old data,
    loaded d = PDict t
    ∧ default (PDict ∅) (t !! id) = PDict old
    ∧ v = PDict data
    ∧ from_dict (PDict (data ∪ old)) = Ret cfg
    ∧ d' = File (Ret (PDict (<[id := PDict (asdict cfg)]> t))).
Proof.
  intros H.
  destruct (is_dict v) eqn:Hv.
  2:{ destruct (set_cfg_not_dict id v d Hv) as [e He]. rewrite He in H. discriminate H. }
  destruct v as [| | | | | |data]; try discriminate Hv.
  destruct (set_cfg_shape id data d) as [[e He]|(t & old & Ht & Hold)].
  { rewrite He in H. discriminate H. }
  rewrite (set_cfg_table id d t old data Ht Hold) in H.
  destruct (from_dict (PDict (data ∪ old))) as [cfg0|e0] eqn:Hfd; [|discriminate H].
  pose proof (f_equal fst H) as Hc. pose proof (f_equal snd H) as Hd'.
  cbn [fst snd] in Hc, Hd'. assert (cfg0 = cfg) as -> by congruence.
  exists t, old, data. split; [exact Ht|]. split; [exact Hold|].
  split; [reflexivity|]. split; [exact Hfd|]. exact (eq_sym Hd').
Qed.

(** ** Field by field *)

Lemma from_dict_Ret m c :
  from_dict (PDict m) = Ret c →
  py_float (raw_field m "ratio" (PFloat lit_1_5)) = Ret (ratio c)
  ∧ py_float (raw_field m "min_coins" (PFloat lit_100_0)) = Ret (min_coins c)
  ∧ py_float (raw_field m "min_ratio" (PFloat lit_1_5)) = Ret (min_ratio c)
  ∧ py_int (raw_field m "min_sec_left" (PInt 20)) = Ret (min_sec_left c)
  ∧ py_bool (raw_field m "alert_enabled" (PBool true)) = alert_enabled c.
Proof.
  rewrite from_dict_fields.
  destruct (py_float (raw_field m "ratio" _)) as [r|]; [rewrite rbind_Ret|done].
  destruct (py_float (raw_field m "min_coins" _)) as [co|]; [rewrite rbind_Ret|done].
  destruct (py_float (raw_field m "min_ratio" _)) as [mr|]; [rewrite rbind_Ret|done].
  destruct (py_int (raw_field m "min_sec_left" _)) as [n|]; [rewrite rbind_Ret|done].
  intros [= <-]. by cbn.
Qed.

Lemma from_dict_of_fields m c :
  py_float (raw_field m "ratio" (PFloat lit_1_5)) = Ret (ratio c) →
  py_float (raw_field m "min_coins" (PFloat lit_100_0)) = Ret (min_coins c) →
  py_float (raw_field m "min_ratio" (PFloat lit_1_5)) = Ret (min_ratio c) →
  py_int (raw_field m "min_sec_left" (PInt 20)) = Ret (min_sec_left c) →
  py_bool (raw_field m "alert_enabled" (PBool true)) = alert_enabled c →
  from_dict (PDict m) = Ret c.
Proof.
  intros H1 H2 H3 H4 H5. rewrite from_dict_fields, H1, H2, H3, H4, H5.
  by destruct c.
Qed.

(** The raw value of a field in an overlay: the payload's when it has
    the key, the stored one otherwise. *)
Lemma raw_field_union data m k dv :
  raw_field (data ∪ m) k dv =
    match data !! k with Some v => v | None => raw_field m k dv end.
Proof.
  unfold raw_field. destruct (data !! k) as [v|] eqn:Hk.
  - by rewrite (lookup_union_Some_l _ _ _ _ Hk).
  - by rewrite lookup_union_r.
Qed.

Lemma raw_field_asdict c :
  (∀ dv, raw_field (asdict c) "ratio" dv = PFloat (ratio c))
  ∧ (∀ dv, raw_field (asdict c) "min_coins" dv = PFloat (min_coins c))
  ∧ (∀ dv, raw_field (asdict c) "min_ratio" dv = PFloat (min_ratio c))
  ∧ (∀ dv, raw_field (asdict c) "min_sec_left" dv = PInt (min_sec_left c))
  ∧ (∀ dv, raw_field (asdict c) "alert_enabled" dv = PBool (alert_enabled c)).
Proof. by destruct c. Qed.

Lemma py_bool_asdict c : py_bool (PDict (asdict c)) = true.
Proof.
  cbn [py_bool]. rewrite bool_decide_eq_false_2; [done|apply asdict_nonempty].
Qed.

(** Reading the customer a record was just written for. *)
Lemma get_cfg_written dflt id t c :
  let d' := File (Ret (PDict (<[id := PDict (asdict c)]> t))) in
  get_cfg dflt id d' = (Ret c, d').
Proof.
  intros d'. rewrite (get_cfg_table dflt id d' (<[id := PDict (asdict c)]> t) eq_refl).
  unfold chosen. rewrite lookup_insert_eq. cbn [default from_option Datatypes.id].
  by rewrite py_bool_asdict, from_dict_asdict.
Qed.

Lemma get_cfg_file dflt id t :
  get_cfg dflt id (File (Ret (PDict t))) =
    (from_dict (chosen dflt id t), File (Ret (PDict t))).
Proof. by apply get_cfg_table. Qed.

(** ** Updates and reads together *)

(** X1. Read your writes: after a successful [set_cfg] for a customer,
    [get_cfg] for that customer returns the record [set_cfg] returned,
    whatever the default customer is. *)
Theorem set_cfg_then_get_cfg dflt id v d cfg d' :
  set_cfg id v d = (Ret cfg, d') →
  get_cfg dflt id d' = (Ret cfg, d').
Proof.
  intros (t & old & data & _ & _ & _ & _ & ->)%set_cfg_Ret.
  apply get_cfg_written.
Qed.

Lemma set_cfg_then_get_cfg_witness :
  let d' := (set_cfg "bob" (PDict scenario_data) (File (Ret (PDict table_default_2)))).2 in
  get_cfg "DEFAULT" "bob" d' = (Ret scenario_cfg, d').
Proof.
  intros d'.
  apply (set_cfg_then_get_cfg "DEFAULT" "bob" (PDict scenario_data)
           (File (Ret (PDict table_default_2)))).
  reflexivity.
Defined.

(** X2. Idempotence: a successful [set_cfg] repeated with the same
    payload returns the same record and leaves the file as the first
    call left it. *)
Theorem set_cfg_idempotent id v d cfg d' :
  set_cfg id v d = (Ret cfg, d') →
  set_cfg id v d' = (Ret cfg, d').
Proof.
  intros (t & old & data & _ & _ & -> & Hfd & ->)%set_cfg_Ret.
  rewrite (set_cfg_table id (File (Ret (PDict (<[id := PDict (asdict cfg)]> t))))
             (<[id := PDict (asdict cfg)]> t) (asdict cfg) data eq_refl).
  2:{ by rewrite lookup_insert_eq. }
  assert (Hagain : from_dict (PDict (data ∪ asdict cfg)) = Ret cfg).
  { apply from_dict_Ret in Hfd as (H1 & H2 & H3 & H4 & H5).
    destruct (raw_field_asdict cfg) as (A1 & A2 & A3 & A4 & A5).
    rewrite raw_field_union in H1, H2, H3, H4, H5.
    apply from_dict_of_fields; rewrite raw_field_union.
    - destruct (data !! "ratio"); [done|by rewrite A1].
    - destruct (data !! "min_coins"); [done|by rewrite A2].
    - destruct (data !! "min_ratio"); [done|by rewrite A3].
    - destruct (data !! "min_sec_left"); [done|by rewrite A4].
    - destruct (data !! "alert_enabled"); [done|by rewrite A5]. }
  rewrite Hagain. by rewrite insert_insert_eq.
Qed.

Lemma set_cfg_idempotent_witness :
  let d' := (set_cfg "DEFAULT" (PDict scenario_data) NoFile).2 in
  set_cfg "DEFAULT" (PDict scenario_data) d' = (Ret scenario_cfg, d').
Proof.
  intros d'.
  apply (set_cfg_idempotent "DEFAULT" (PDict scenario_data) NoFile). reflexivity.
Defined.

(** X3. Isolation: a successful [set_cfg] for one customer leaves every
    other entry of the table as it was; and unless the customer written
    is the default one, [get_cfg] answers for every other customer as
    it did before. *)
Theorem set_cfg_other_customers dflt id id' v d cfg d' :
  set_cfg id v d = (Ret cfg, d') →
  id' ≠ id →
  (∃ t t', _load_store d = (Ret (PDict t), d)
           ∧ _load_store d' = (Ret (PDict t'), d')
           ∧ t' !! id' = t !! id')
  ∧ (id ≠ dflt → get_cfg dflt id' d' = ((get_cfg dflt id' d).1, d')).
Proof.
  intros (t & old & data & Ht & _ & _ & _ & ->)%set_cfg_Ret Hne. split.
  - exists t, (<[id := PDict (asdict cfg)]> t).
    split; [by rewrite _load_store_loaded, Ht|]. split; [done|].
    by rewrite lookup_insert_ne.
  - intros Hd.
    rewrite (get_cfg_table dflt id' d t Ht), get_cfg_file.
    unfold chosen. by rewrite !lookup_insert_ne.
Qed.

Lemma set_cfg_other_customers_witness :
  let d := File (Ret (PDict table_default_2)) in
  let d' := (set_cfg "bob" (PDict scenario_data) d).2 in
  get_cfg "DEFAULT" "carol" d' = (Ret cfg_ratio_2, d').
Proof.
  intros d d'.
  rewrite (proj2 (set_cfg_other_customers "DEFAULT" "bob" "carol" (PDict scenario_data)
                    d scenario_cfg d' eq_refl ltac:(discriminate)) ltac:(discriminate)).
  reflexivity.
Defined.

(** X4. An update of the default customer reaches every customer without
    an entry of their own: after it, [get_cfg] returns the record just
    written for each of them. *)
Theorem set_cfg_default_reaches dflt id' v d cfg d' t :
  set_cfg dflt v d = (Ret cfg, d') →
  _load_store d = (Ret (PDict t), d) →
  t !! id' = None →
  get_cfg dflt id' d' = (Ret cfg, d').
Proof.
  intros (t0 & old & data & Ht0 & _ & _ & _ & ->)%set_cfg_Ret Ht%loaded_table Hid.
  assert (t0 = t) as -> by congruence.
  destruct (decide (id' = dflt)) as [->|Hne]; [apply get_cfg_written|].
  rewrite get_cfg_file.
  unfold chosen. rewrite lookup_insert_ne, Hid, lookup_insert_eq by done.
  cbn [default from_option Datatypes.id]. change (py_bool PNone) with false.
  by rewrite py_bool_asdict, from_dict_asdict.
Qed.

Lemma set_cfg_default_reaches_witness :
  let d' := (set_cfg "DEFAULT" (PDict scenario_data) NoFile).2 in
  get_cfg "DEFAULT" "anyone" d' = (Ret scenario_cfg, d').
Proof.
  intros d'.
  apply (set_cfg_default_reaches "DEFAULT" "anyone" (PDict scenario_data) NoFile
           scenario_cfg d' ∅); reflexivity.
Defined.

(** X5. Over a complete stored record, the fields the payload does not
    name keep their stored values in the record [set_cfg] returns and
    writes. *)
Theorem set_cfg_keeps_unnamed_fields id data d t c cfg d' :
  _load_store d = (Ret (PDict t), d) →
  t !! id = Some (PDict (asdict c)) →
  set_cfg id (PDict data) d = (Ret cfg, d') →
  (data !! "ratio" = None → ratio cfg = ratio c)
  ∧ (data !! "min_coins" = None → min_coins cfg = min_coins c)
  ∧ (data !! "min_ratio" = None → min_ratio cfg = min_ratio c)
  ∧ (data !! "min_sec_left" = None → min_sec_left cfg = min_sec_left c)
  ∧ (data !! "alert_enabled" = None → alert_enabled cfg = alert_enabled c).
Proof.
  intros Ht%loaded_table Hid Hset.
  rewrite (set_cfg_table id d t (asdict c) data Ht) in Hset by by rewrite Hid.
  destruct (from_dict (PDict (data ∪ asdict c))) as [cfg0|] eqn:Hfd; [|discriminate Hset].
  assert (cfg0 = cfg) as -> by (pose proof (f_equal fst Hset) as H; cbn in H; congruence).
  apply from_dict_Ret in Hfd as (H1 & H2 & H3 & H4 & H5).
  destruct (raw_field_asdict c) as (A1 & A2 & A3 & A4 & A5).
  rewrite raw_field_union in H1, H2, H3, H4, H5.
  repeat split; intros Hk; rewrite Hk in *.
  - rewrite A1 in H1. cbn in H1. congruence.
  - rewrite A2 in H2. cbn in H2. congruence.
  - rewrite A3 in H3. cbn in H3. congruence.
  - rewrite A4 in H4. cbn in H4. congruence.
  - rewrite A5 in H5. by cbn in H5.
Qed.

Lemma set_cfg_keeps_unnamed_fields_witness :
  let d := File (Ret (PDict table_default_2)) in
  let cfg := (set_cfg "DEFAULT" (PDict scenario_data) d).1 in
  ∃ c, cfg = Ret c ∧ ratio c = lit_2_0 ∧ min_ratio c = lit_1_5 ∧ alert_enabled c = true.
Proof.
  intros d cfg.
  exists {| ratio := lit_2_0; min_coins := lit_50_0; min_ratio := lit_1_5;
            min_sec_left := 10; alert_enabled := true |}.
  split; [reflexivity|].
  destruct (set_cfg_keeps_unnamed_fields "DEFAULT" scenario_data d table_default_2
              cfg_ratio_2 _ _ eq_refl eq_refl eq_refl) as (H1 & _ & H3 & _ & H5).
  split; [exact (H1 eq_refl)|]. split; [exact (H3 eq_refl)|exact (H5 eq_refl)].
Defined.

(** X6. Writing over a file that cannot be used: [set_cfg] starts from
    the empty table, so a successful update replaces whatever the file
    held by a table with the one record it wrote. *)
Theorem set_cfg_over_unusable id v d cfg d' :
  unusable d →
  set_cfg id v d = (Ret cfg, d') →
  d' = File (Ret (PDict {[ id := PDict (asdict cfg) ]}))
  ∧ ∃ data, v = PDict data ∧ from_dict (PDict data) = Ret cfg.
Proof.
  intros Hd (t & old & data & Ht & Hold & -> & Hfd & ->)%set_cfg_Ret.
  assert (t = ∅) as ->.
  { assert (Hl : loaded d = PDict ∅) by (by destruct Hd).
    rewrite Hl in Ht. pose proof (f_equal (λ v, match v with PDict m => m | _ => ∅ end) Ht).
    done. }
  rewrite lookup_empty in Hold. cbn in Hold.
  assert (old = ∅) as ->.
  { pose proof (f_equal (λ v, match v with PDict m => m | _ => ∅ end) Hold). done. }
  split; [done|]. exists data. split; [done|].
  by rewrite (right_id_L ∅ (∪)) in Hfd.
Qed.

Lemma set_cfg_over_unusable_witness :
  (set_cfg "bob" (PDict scenario_data) (File (Raise JSONDecodeError))).2 =
    File (Ret (PDict {[ "bob" := PDict (asdict scenario_cfg) ]})).
Proof.
  exact (proj1 (set_cfg_over_unusable "bob" (PDict scenario_data)
                  (File (Raise JSONDecodeError)) scenario_cfg _
                  (unusable_raises JSONDecodeError) eq_refl)).
Defined.

(** ** The table the program keeps *)

Lemma complete_table_empty : complete_table ∅.
Proof. intros id v H. by rewrite lookup_empty in H. Qed.

Lemma complete_table_insert t id c :
  complete_table t → complete_table (<[id := PDict (asdict c)]> t).
Proof.
  intros Ht id' v. destruct (decide (id' = id)) as [->|Hne].
  - rewrite lookup_insert_eq. intros [= <-]. by exists c.
  - rewrite lookup_insert_ne by done. apply Ht.
Qed.

Lemma well_kept_file t : complete_table t → well_kept (File (Ret (PDict t))).
Proof. intros Ht. by exists t. Qed.

Lemma well_kept_unusable d : unusable d → well_kept d.
Proof.
  intros Hd. exists ∅. split; [|apply complete_table_empty].
  rewrite _load_store_loaded. by destruct Hd.
Qed.

Lemma well_kept_loaded d : well_kept d → ∃ t, loaded d = PDict t ∧ complete_table t.
Proof. intros (t & Ht%loaded_table & Hc). by exists t. Qed.

(** The customer's entry in such a table: none, or a complete record. *)
Lemma complete_table_entry t id :
  complete_table t →
  default (PDict ∅) (t !! id) = PDict ∅ ∧ t !! id = None
  ∨ ∃ c, t !! id = Some (PDict (asdict c)).
Proof.
  intros Ht. destruct (t !! id) as [v|] eqn:Hid; [|by left].
  destruct (Ht id v Hid) as [c ->]. right. by exists c.
Qed.

Lemma set_cfg_well_kept id v d : well_kept d → well_kept (set_cfg id v d).2.
Proof.
  intros Hd. destruct (set_cfg id v d) as [[cfg|e] d'] eqn:Hset; cbn [snd].
  - destruct (well_kept_loaded d Hd) as (t & Ht & Hc).
    apply set_cfg_Ret in Hset as (t0 & old & data & Ht0 & _ & _ & _ & ->).
    assert (t0 = t) as -> by congruence.
    by apply well_kept_file, complete_table_insert.
  - by rewrite (set_cfg_raise _ _ _ _ _ Hset).
Qed.

Lemma get_cfg_well_kept dflt id d : well_kept d → ∃ c, get_cfg dflt id d = (Ret c, d).
Proof.
  intros (t & Ht & Hc)%well_kept_loaded. rewrite (get_cfg_table dflt id d t Ht).
  unfold chosen.
  destruct (complete_table_entry t id Hc) as [[_ ->]|[c ->]].
  - cbn [default from_option Datatypes.id]. change (py_bool PNone) with false. cbv iota.
    destruct (complete_table_entry t dflt Hc) as [[_ ->]|[c ->]].
    + by exists Config_defaults.
    + cbn [default from_option Datatypes.id]. rewrite py_bool_asdict, from_dict_asdict.
      by exists c.
  - cbn [default from_option Datatypes.id]. rewrite py_bool_asdict, from_dict_asdict.
    by exists c.
Qed.

Lemma dispatch_well_kept dflt tok r req d :
  well_kept d → well_kept (dispatch dflt tok r req d).2.
Proof.
  intros Hd. destruct r; unfold dispatch.
  - unfold api_get_config. rewrite !io_bind_eq.
    destruct (get_cfg_well_kept dflt (default dflt (args_customer_id req)) d Hd) as [c ->].
    done.
  - unfold api_update_config. rewrite !io_bind_eq. unfold pure.
    destruct (_require_auth tok req); [|done].
    pose proof (set_cfg_well_kept (default dflt (args_customer_id req))
      match json_body req with
      | Some v => if py_bool v then v else PDict ∅
      | None => PDict ∅
      end d Hd) as Hs.
    rewrite io_bind_eq. by destruct (set_cfg _ _ d) as [[cfg|e] d'].
  - unfold html_get_form. rewrite !io_bind_eq.
    destruct (get_cfg_well_kept dflt (default dflt (args_customer_id req)) d Hd) as [c ->].
    done.
  - unfold html_post_form. rewrite !io_bind_eq. unfold pure.
    destruct (_require_auth tok req); [|done].
    pose proof (set_cfg_well_kept (default dflt (form req !! "customer_id"))
      (PDict (posted (form req))) d Hd) as Hs. unfold posted in Hs.
    cbv zeta. rewrite io_bind_eq. by destruct (set_cfg _ _ d) as [[cfg|e] d'].
  - done.
Qed.

(** X7. The program keeps its table complete: if every entry of the
    stored table is a record as [set_cfg] writes it (as in a store that
    is absent or unusable), this is still so after any sequence of
    requests to any of the routes, accepted or not. *)
Theorem serve_keeps_table dflt tok calls d :
  well_kept d → well_kept (serve dflt tok calls d).
Proof.
  revert d. induction calls as [|[r req] calls IH]; intros d Hd; [done|].
  cbn [serve foldl]. apply IH. by apply dispatch_well_kept.
Qed.

Lemma serve_keeps_table_witness :
  let post := mkRequest None (Some "bob") (Some (PDict scenario_data)) ∅ in
  let bad := mkRequest None (Some "bob") (Some (PDict {[ "ratio" := PStr "x" ]})) ∅ in
  let get := mkRequest None (Some "bob") None ∅ in
  well_kept (serve "DEFAULT" None
               [(POST_api_config, post); (POST_api_config, bad); (GET_api_config, get)]
               NoFile).
Proof.
  intros post bad get.
  apply (serve_keeps_table "DEFAULT" None _ NoFile).
  apply well_kept_unusable. constructor.
Defined.

(** X8. Over such a table the two reading handlers always answer: with
    the record [get_cfg] resolves, and without touching the file. *)
Theorem read_handlers_answer dflt req d :
  well_kept d →
  ∃ cfg,
    get_cfg dflt (default dflt (args_customer_id req)) d = (Ret cfg, d)
    ∧ api_get_config dflt req d = (Ret (asdict cfg), d)
    ∧ html_get_form dflt req d = (Ret (cfg, default dflt (args_customer_id req)), d).
Proof.
  intros Hd.
  destruct (get_cfg_well_kept dflt (default dflt (args_customer_id req)) d Hd) as [c Hc].
  exists c. split; [done|].
  unfold api_get_config, html_get_form. by rewrite !io_bind_eq, Hc.
Qed.

Lemma read_handlers_answer_witness :
  let d := File (Ret (PDict table_default_2)) in
  ∃ cfg, api_get_config "DEFAULT" (mkRequest None (Some "bob") None ∅) d
         = (Ret (asdict cfg), d).
Proof.
  intros d.
  destruct (read_handlers_answer "DEFAULT" (mkRequest None (Some "bob") None ∅) d)
    as (cfg & _ & H & _).
  - apply well_kept_file. intros id v.
    unfold table_default_2. rewrite lookup_singleton_Some. intros [_ <-]. by eexists.
  - by exists cfg.
Defined.

(** What is stored, or filled in by default, coerces. *)
Lemma coercion_error_stored k old :
  k ∈ coercion_order →
  old = ∅ ∨ (∃ c, old = asdict c) →
  coercion_error k (raw_field old k (default_raw k)) = None.
Proof.
  unfold coercion_order. rewrite !elem_of_cons, elem_of_nil.
  intros [->|[->|[->|[->|[]]]]] [->|[[] ->]]; reflexivity.
Qed.

Lemma first_error_None m ks :
  (∀ k, k ∈ ks → coercion_error k (raw_field m k (default_raw k)) = None) →
  first_error m ks = None.
Proof.
  induction ks as [|k ks IH]; intros H; [done|]. cbn [first_error].
  rewrite (H k) by (apply elem_of_cons; by left). apply IH.
  intros k' Hk'. apply H. apply elem_of_cons. by right.
Qed.

Lemma set_cfg_well_kept_Ret id data d :
  well_kept d →
  (∀ k v, data !! k = Some v → coercion_error k v = None) →
  ∃ cfg d', set_cfg id (PDict data) d = (Ret cfg, d').
Proof.
  intros (t & Ht & Hc)%well_kept_loaded Hdata.
  assert (Hold : ∃ old, default (PDict ∅) (t !! id) = PDict old
                        ∧ (old = ∅ ∨ ∃ c, old = asdict c)).
  { destruct (complete_table_entry t id Hc) as [[-> _]|[c ->]].
    - exists ∅. by split; [|left].
    - exists (asdict c). split; [done|right; by exists c]. }
  destruct Hold as (old & Hold & Hkind).
  rewrite (set_cfg_table id d t old data Ht Hold).
  pose proof (from_dict_first_error (data ∪ old)) as Hfd.
  rewrite first_error_None in Hfd.
  - destruct Hfd as [cfg ->]. by eexists _, _.
  - intros k Hk. rewrite raw_field_union.
    destruct (data !! k) as [v|] eqn:Hv; [by apply (Hdata k)|].
    by apply coercion_error_stored.
Qed.

(** X9. Over a table the program keeps, an update is accepted exactly
    when every numeric field the payload names coerces: the stored
    record can never be the reason of a failure. *)
Theorem set_cfg_accepts id data d :
  well_kept d →
  (∃ cfg d', set_cfg id (PDict data) d = (Ret cfg, d'))
  ↔ (∀ k v, data !! k = Some v → coercion_error k v = None).
Proof.
  intros Hd. split; [|by apply set_cfg_well_kept_Ret].
  intros (cfg & d' & Hset) k v Hk.
  destruct (coercion_error k v) as [e|] eqn:He; [|done].
  apply set_cfg_Ret in Hset as (t0 & old & data0 & _ & _ & [= <-] & Hfd & _).
  destruct (from_dict_raises (data ∪ old) k v e) as [e' He']; [|done|congruence].
  by apply lookup_union_Some_l.
Qed.

Lemma set_cfg_accepts_witness :
  ∃ cfg d', set_cfg "bob" (PDict scenario_data) (File (Ret (PDict table_default_2)))
            = (Ret cfg, d').
Proof.
  apply (set_cfg_accepts "bob" scenario_data (File (Ret (PDict table_default_2)))).
  - apply well_kept_file. intros id v.
    unfold table_default_2. rewrite lookup_singleton_Some. intros [_ <-]. by eexists.
  - intros k v. unfold scenario_data.
    destruct (decide (k = "min_coins")) as [->|H1].
    { intros [= <-]. reflexivity. }
    rewrite lookup_insert_ne by done.
    rewrite lookup_singleton_Some. intros [<- <-]. reflexivity.
Defined.

(** ** Entries that are no records *)

(** X10. A stored entry that is true but no object (a number, a string,
    a non-empty list) makes [get_cfg] for that customer raise an
    [AttributeError]: there is no fall-back to the default customer. *)
Theorem get_cfg_entry_not_dict dflt id d t v :
  _load_store d = (Ret (PDict t), d) →
  t !! id = Some v →
  py_bool v = true →
  is_dict v = false →
  get_cfg dflt id d = (Raise AttributeError, d).
Proof.
  intros Ht%loaded_table Hid Hv Hnd. rewrite (get_cfg_table dflt id d t Ht).
  unfold chosen. rewrite Hid. cbn [default from_option Datatypes.id]. rewrite Hv.
  by destruct v.
Qed.

Lemma get_cfg_entry_not_dict_witness :
  let d := File (Ret (PDict (<["bob" := PInt 5]> table_default_2))) in
  get_cfg "DEFAULT" "bob" d = (Raise AttributeError, d).
Proof.
  intros d.
  by apply (get_cfg_entry_not_dict "DEFAULT" "bob" d
              (<["bob" := PInt 5]> table_default_2) (PInt 5)).
Defined.

(** X11. A stored entry that is no object, [null] included, can be read
    as far as [get_cfg] goes ([null] counts as no entry) but never
    updated: [set_cfg] raises a [TypeError] and writes nothing. *)
Theorem set_cfg_entry_not_dict dflt id d t v data :
  _load_store d = (Ret (PDict t), d) →
  t !! id = Some v →
  is_dict v = false →
  set_cfg id (PDict data) d = (Raise TypeError, d)
  ∧ (py_bool v = false →
     get_cfg dflt id d = ((get_cfg dflt id (File (Ret (PDict (delete id t))))).1, d)).
Proof.
  intros Ht%loaded_table Hid Hnd. split.
  - apply set_cfg_Raise. unfold set_cfg. rewrite io_bind_load, Ht.
    unfold dict_get. rewrite Hid. by destruct v.
  - intros Hv. rewrite (get_cfg_table dflt id d t Ht), get_cfg_file.
    f_equal. f_equal. unfold chosen. rewrite Hid, lookup_delete_eq.
    cbn [default from_option Datatypes.id]. rewrite Hv. change (py_bool PNone) with false.
    cbv iota. destruct (decide (id = dflt)) as [<-|Hne].
    + rewrite Hid, lookup_delete_eq. cbn [default from_option Datatypes.id].
      by rewrite Hv.
    + by rewrite lookup_delete_ne.
Qed.

Lemma set_cfg_entry_not_dict_witness :
  let d := File (Ret (PDict (<["bob" := PNone]> table_default_2))) in
  set_cfg "bob" (PDict scenario_data) d = (Raise TypeError, d)
  ∧ get_cfg "DEFAULT" "bob" d = (Ret cfg_ratio_2, d).
Proof.
  intros d.
  destruct (set_cfg_entry_not_dict "DEFAULT" "bob" d (<["bob" := PNone]> table_default_2)
              PNone scenario_data eq_refl eq_refl eq_refl) as [Hset Hget].
  split; [exact Hset|]. rewrite (Hget eq_refl). reflexivity.
Defined.

(** ** The handlers that write *)

(** [api_update_config] behind the gate: [set_cfg] on the payload. *)
Lemma api_update_config_set_cfg dflt tok req d :
  _require_auth tok req = Ret () →
  api_update_config dflt tok req d =
    let customer_id := default dflt (args_customer_id req) in
    let payload := match json_body req with
                   | Some v => if py_bool v then v else PDict ∅
                   | None => PDict ∅
                   end in
    match set_cfg customer_id payload d with
    | (Ret cfg, d') => (Ret (true, customer_id, asdict cfg), d')
    | (Raise e, d') => (Raise e, d')
    end.
Proof.
  intros Hauth. unfold api_update_config. rewrite Hauth, io_bind_pure_Ret.
  cbv zeta. rewrite io_bind_eq. by destruct (set_cfg _ _ d) as [[cfg|e] d'].
Qed.

(** A handler that answers has passed the gate. *)
Lemma api_update_config_Ret dflt tok req d r d' :
  api_update_config dflt tok req d = (Ret r, d') → _require_auth tok req = Ret ().
Proof.
  unfold api_update_config. destruct (_require_auth tok req) as [[]|e]; [done|].
  by rewrite io_bind_pure_Raise.
Qed.

Lemma html_post_form_Ret dflt tok req d r d' :
  html_post_form dflt tok req d = (Ret r, d') → _require_auth tok req = Ret ().
Proof.
  unfold html_post_form. destruct (_require_auth tok req) as [[]|e]; [done|].
  by rewrite io_bind_pure_Raise.
Qed.

(** X12. A POST to the API without a JSON body, or with a body that is
    false ([null], [0], [""], [[]], [{}]), is an update with the empty
    payload; over a table the program keeps it is accepted and answers
    with the record it has written for the customer. *)
Theorem api_update_config_no_body dflt tok req d :
  well_kept d →
  _require_auth tok req = Ret () →
  json_body req = None ∨ (∃ v, json_body req = Some v ∧ py_bool v = false) →
  ∃ cfg d',
    set_cfg (default dflt (args_customer_id req)) (PDict ∅) d = (Ret cfg, d')
    ∧ api_update_config dflt tok req d =
        (Ret (true, default dflt (args_customer_id req), asdict cfg), d').
Proof.
  intros Hd Hauth Hbody.
  destruct (set_cfg_well_kept_Ret (default dflt (args_customer_id req)) ∅ d Hd)
    as (cfg & d' & Hset).
  { intros k v H. by rewrite lookup_empty in H. }
  exists cfg, d'. split; [done|].
  rewrite (api_update_config_set_cfg dflt tok req d Hauth). cbv zeta.
  destruct Hbody as [->|(v & -> & ->)]; by rewrite Hset.
Qed.

Lemma api_update_config_no_body_witness :
  let req := mkRequest None (Some "bob") None ∅ in
  ∃ cfg d',
    set_cfg "bob" (PDict ∅) NoFile = (Ret cfg, d')
    ∧ api_update_config "DEFAULT" None req NoFile = (Ret (true, "bob", asdict cfg), d').
Proof.
  intros req.
  apply (api_update_config_no_body "DEFAULT" None req NoFile).
  - apply well_kept_unusable. constructor.
  - reflexivity.
  - by left.
Defined.

(** X13. A JSON body that is true but no object (a number, a string, a
    non-empty list) makes the update raise, and nothing is written; over
    a table whose entry for the customer is absent or an object the
    exception is the [TypeError] of unpacking the payload. *)
Theorem api_update_config_body_not_dict dflt tok req d v :
  _require_auth tok req = Ret () →
  json_body req = Some v →
  py_bool v = true →
  is_dict v = false →
  (∃ e, api_update_config dflt tok req d = (Raise e, d))
  ∧ (∀ t old,
       _load_store d = (Ret (PDict t), d) →
       default (PDict ∅) (t !! default dflt (args_customer_id req)) = PDict old →
       api_update_config dflt tok req d = (Raise TypeError, d)).
Proof.
  intros Hauth Hbody Hv Hnd.
  rewrite (api_update_config_set_cfg dflt tok req d Hauth). cbv zeta.
  rewrite Hbody, Hv. split.
  - destruct (set_cfg_not_dict (default dflt (args_customer_id req)) v d Hnd) as [e ->].
    by exists e.
  - intros t old Ht%loaded_table Hold.
    assert (H : set_cfg (default dflt (args_customer_id req)) v d = (Raise TypeError, d)).
    { apply set_cfg_Raise. unfold set_cfg. rewrite io_bind_load, Ht.
      unfold dict_get. rewrite Hold. by destruct v. }
    by rewrite H.
Qed.

Lemma api_update_config_body_not_dict_witness :
  let req := mkRequest None (Some "bob") (Some (PList [PInt 1])) ∅ in
  let d := File (Ret (PDict table_default_2)) in
  api_update_config "DEFAULT" None req d = (Raise TypeError, d).
Proof.
  intros req d.
  apply (proj2 (api_update_config_body_not_dict "DEFAULT" None req d (PList [PInt 1])
                  eq_refl eq_refl eq_refl eq_refl) table_default_2 ∅); reflexivity.
Defined.

(** X14. What a successful POST to the API answers is what a GET for the
    same customer answers right after it: [ok] is true, the customer is
    the one of the query (the default one when there is none), and the
    record is the stored one. *)
Theorem api_update_then_get dflt tok req d ok customer_id config d' :
  api_update_config dflt tok req d = (Ret (ok, customer_id, config), d') →
  ok = true
  ∧ customer_id = default dflt (args_customer_id req)
  ∧ api_get_config dflt req d' = (Ret config, d').
Proof.
  intros H. pose proof (api_update_config_Ret _ _ _ _ _ _ H) as Hauth.
  rewrite (api_update_config_set_cfg dflt tok req d Hauth) in H. cbv zeta in H.
  destruct (set_cfg _ _ d) as [[cfg|e] d0] eqn:Hset; [|discriminate H].
  pose proof (f_equal fst H) as Hr. pose proof (f_equal snd H) as Hd0.
  cbn [fst snd] in Hr, Hd0. subst d0.
  assert (ok = true ∧ customer_id = default dflt (args_customer_id req)
          ∧ config = asdict cfg) as (-> & -> & ->).
  { assert (Hp : (true, default dflt (args_customer_id req), asdict cfg)
                 = (ok, customer_id, config)) by congruence.
    pose proof (f_equal (λ x, x.1.1) Hp). pose proof (f_equal (λ x, x.1.2) Hp).
    pose proof (f_equal snd Hp). by cbn in *. }
  split; [done|]. split; [done|].
  apply set_cfg_Ret in Hset as (t & old & data & _ & _ & _ & _ & ->).
  unfold api_get_config. rewrite io_bind_eq.
  by rewrite (get_cfg_written dflt (default dflt (args_customer_id req)) t cfg).
Qed.

Lemma api_update_then_get_witness :
  let req := mkRequest None (Some "bob") (Some (PDict scenario_data)) ∅ in
  let d' := (api_update_config "DEFAULT" None req NoFile).2 in
  api_get_config "DEFAULT" req d' = (Ret (asdict scenario_cfg), d').
Proof.
  intros req d'.
  apply (api_update_then_get "DEFAULT" None req NoFile true "bob" (asdict scenario_cfg) d').
  reflexivity.
Defined.

(** ** The form handler *)

Lemma PDict_inj m m' : PDict m = PDict m' → m = m'.
Proof.
  intros H. exact (f_equal (λ v, match v with PDict x => x | _ => m end) H).
Qed.

Lemma posted_alert_enabled f :
  posted f !! "alert_enabled" = Some (PBool (is_on (form_get f "alert_enabled"))).
Proof. unfold posted. by apply map_lookup_filter_Some. Qed.

(** X15. A form that is accepted always decides [alert_enabled]: the
    stored flag is true exactly when the form field is ["1"], ["true"]
    or ["True"], and false when the field is anything else or missing,
    whatever was stored.  The redirection goes to the form of the
    customer just written, which shows the record written. *)
Theorem html_post_form_alert_enabled dflt tok req d customer_id d' :
  html_post_form dflt tok req d = (Ret customer_id, d') →
  customer_id = default dflt (form req !! "customer_id")
  ∧ ∃ cfg,
      get_cfg dflt customer_id d' = (Ret cfg, d')
      ∧ alert_enabled cfg = is_on (form_get (form req) "alert_enabled")
      ∧ ∀ hdr body frm,
          html_get_form dflt (mkRequest hdr (Some customer_id) body frm) d'
          = (Ret (cfg, customer_id), d').
Proof.
  intros H. pose proof (html_post_form_Ret _ _ _ _ _ _ H) as Hauth.
  rewrite (html_post_form_posted dflt tok req d Hauth) in H. cbv zeta in H.
  destruct (set_cfg _ _ d) as [[cfg|e] d0] eqn:Hset; [|discriminate H].
  pose proof (f_equal fst H) as Hr. pose proof (f_equal snd H) as Hd0.
  cbn [fst snd] in Hr, Hd0. subst d0.
  assert (customer_id = default dflt (form req !! "customer_id")) as -> by congruence.
  split; [done|]. exists cfg.
  apply set_cfg_Ret in Hset as (t & old & data & _ & _ & Hdata%PDict_inj & Hfd & ->).
  subst data.
  pose proof (get_cfg_written dflt (default dflt (form req !! "customer_id")) t cfg) as Hget.
  cbv zeta in Hget. split; [done|]. split.
  - apply from_dict_Ret in Hfd as (_ & _ & _ & _ & H5).
    rewrite raw_field_union, posted_alert_enabled in H5. by rewrite <- H5.
  - intros hdr body frm. unfold html_get_form.
    cbn [args_customer_id default from_option Datatypes.id].
    by rewrite io_bind_eq, Hget.
Qed.

Lemma html_post_form_alert_enabled_witness :
  let req := mkRequest None None None {[ "customer_id" := "bob"; "ratio" := "2.0" ]} in
  let d := File (Ret (PDict table_bob)) in
  let d' := (html_post_form "DEFAULT" None req d).2 in
  ∃ cfg, get_cfg "DEFAULT" "bob" d' = (Ret cfg, d') ∧ alert_enabled cfg = false.
Proof.
  intros req d d'.
  destruct (html_post_form_alert_enabled "DEFAULT" None req d "bob" d' eq_refl)
    as (_ & cfg & Hget & Halert & _).
  exists cfg. split; [exact Hget|]. rewrite Halert. reflexivity.
Defined.

(** ** White space around the token *)

Section StripFacts.
Variable space : ascii → bool.

Lemma lstrip_first s (ch : ascii) : first_char (lstrip space s) = Some ch → space ch = false.
Proof.
  induction s as [|a s IH]; [done|]. cbn [lstrip].
  destruct (space a) eqn:Ha; [done|]. cbn. by intros [= <-].
Qed.

Lemma rstrip_first s (ch : ascii) : first_char (rstrip space s) = Some ch → first_char s = Some ch.
Proof.
  destruct s as [|a s]; [done|]. cbn [rstrip].
  destruct (rstrip space s); [destruct (space a)|]; done.
Qed.

Lemma rstrip_last s (ch : ascii) : last_char (rstrip space s) = Some ch → space ch = false.
Proof.
  induction s as [|a s IH]; [done|]. cbn [rstrip].
  destruct (rstrip space s) as [|b t] eqn:Hr.
  - destruct (space a) eqn:Ha; [done|]. cbn. by intros [= <-].
  - intros H. by apply IH.
Qed.

Lemma strip_first s (ch : ascii) : first_char (strip space s) = Some ch → space ch = false.
Proof. unfold strip. intros H%rstrip_first. by eapply lstrip_first. Qed.

Lemma strip_last s (ch : ascii) : last_char (strip space s) = Some ch → space ch = false.
Proof. unfold strip. apply rstrip_last. Qed.

Lemma lstrip_id s :
  (∀ ch, first_char s = Some ch → space ch = false) → lstrip space s = s.
Proof.
  destruct s as [|a s]; [done|]. intros H. cbn [lstrip].
  by rewrite (H a eq_refl).
Qed.
End StripFacts.

Lemma lstrip_blank_app p s :
  blank p = true → lstrip Py_UNICODE_ISSPACE (p +:+ s) = lstrip Py_UNICODE_ISSPACE s.
Proof.
  induction p as [|a p IH]; [done|]. simpl.
  intros [Ha Hp]%andb_prop. rewrite Ha. by apply IH.
Qed.

Lemma rstrip_blank p : blank p = true → rstrip Py_UNICODE_ISSPACE p = "".
Proof.
  induction p as [|a p IH]; [done|]. simpl.
  intros [Ha Hp]%andb_prop. by rewrite (IH Hp), Ha.
Qed.

Lemma rstrip_app_blank s p :
  blank p = true → rstrip Py_UNICODE_ISSPACE (s +:+ p) = rstrip Py_UNICODE_ISSPACE s.
Proof.
  intros Hp. induction s as [|a s IH]; [by apply rstrip_blank|].
  simpl. by rewrite IH.
Qed.

(** A token without white space around it is found under any padding. *)
Lemma strip_padded p1 s p2 :
  s ≠ "" → strip Py_UNICODE_ISSPACE s = s → blank p1 = true → blank p2 = true →
  strip Py_UNICODE_ISSPACE (p1 +:+ s +:+ p2) = s.
Proof.
  intros Hne Hs H1 H2.
  assert (Hfirst : ∀ ch, first_char s = Some ch → Py_UNICODE_ISSPACE ch = false).
  { intros ch Hc. rewrite <- Hs in Hc. by eapply strip_first. }
  assert (Hl : lstrip Py_UNICODE_ISSPACE s = s) by by apply lstrip_id.
  assert (Hr : rstrip Py_UNICODE_ISSPACE s = s).
  { unfold strip in Hs. by rewrite Hl in Hs. }
  unfold strip. rewrite lstrip_blank_app by done.
  rewrite lstrip_id.
  - by rewrite rstrip_app_blank.
  - intros ch Hc. apply Hfirst. by destruct s.
Qed.

(** X16. A credential that begins or ends with white space locks the
    writes: no header whatever satisfies the gate, every request is
    answered with 401 or 403. *)
Theorem require_auth_blank_edge secret (ch : ascii) req :
  first_char secret = Some ch ∨ last_char secret = Some ch →
  Py_UNICODE_ISSPACE ch = true →
  _require_auth (Some secret) req = Raise (HTTPException 401)
  ∨ _require_auth (Some secret) req = Raise (HTTPException 403).
Proof.
  intros Hc Hsp.
  destruct (String.eqb_spec secret "") as [->|Hne]; [by destruct Hc|].
  destruct (presented_token (authorization req)) as [rest|] eqn:Hp;
    [right|left; by apply _require_auth_no_bearer].
  rewrite (_require_auth_bearer secret req rest Hne Hp).
  destruct (String.eqb_spec (strip Py_UNICODE_ISSPACE rest) secret) as [Heq|Hno];
    [exfalso|by rewrite bool_decide_eq_false_2].
  rewrite <- Heq in Hc. destruct Hc as [Hc|Hc].
  - apply strip_first in Hc. congruence.
  - apply strip_last in Hc. congruence.
Qed.

Lemma require_auth_blank_edge_witness :
  _require_auth (Some " changeme") (mkRequest (Some "Bearer  changeme") None None ∅)
  = Raise (HTTPException 403).
Proof.
  destruct (require_auth_blank_edge " changeme" " "
              (mkRequest (Some "Bearer  changeme") None None ∅)
              (or_introl eq_refl) eq_refl) as [H|H]; [discriminate H|exact H].
Defined.

(** X17. A credential without white space around it is accepted under
    any white space before and after the token in the header. *)
Theorem require_auth_padded secret p1 p2 req :
  secret ≠ "" →
  strip Py_UNICODE_ISSPACE secret = secret →
  blank p1 = true → blank p2 = true →
  authorization req = Some ("Bearer " +:+ p1 +:+ secret +:+ p2) →
  _require_auth (Some secret) req = Ret ().
Proof.
  intros Hne Hs H1 H2 Hh.
  rewrite (_require_auth_bearer secret req (p1 +:+ secret +:+ p2) Hne)
    by (by rewrite Hh).
  by rewrite strip_padded, bool_decide_eq_true_2.
Qed.

Lemma require_auth_padded_witness :
  _require_auth (Some "changeme") (mkRequest (Some "Bearer   changeme ") None None ∅)
  = Ret ().
Proof.
  apply (require_auth_padded "changeme" "  " " "); try reflexivity. discriminate.
Defined.

(** ** The form page and the form handler *)

Example str_of_int_examples :
  str_of_int 0 = "0" ∧ str_of_int 20 = "20" ∧ str_of_int (-7) = "-7"
  ∧ str_of_int 1000 = "1000" ∧ str_of_int 9007199254740993 = "9007199254740993".
Proof. repeat split; reflexivity. Qed.

Lemma digit_char_digit n :
  0 ≤ n < 10 → is_digit (digit_char n) = true ∧ digit_val (digit_char n) = n.
Proof.
  intros H.
  assert (Hn : n = 0 ∨ n = 1 ∨ n = 2 ∨ n = 3 ∨ n = 4 ∨ n = 5 ∨ n = 6 ∨ n = 7
               ∨ n = 8 ∨ n = 9) by lia.
  by destruct Hn as [->|[->|[->|[->|[->|[->|[->|[->|[->| ->]]]]]]]]].
Qed.

Lemma more_digits_digit acc cnt n tail :
  0 ≤ n < 10 →
  more_digits acc cnt (String (digit_char n) tail) =
    more_digits (10 * acc + n) (cnt + 1) tail.
Proof.
  intros [Hd Hv]%digit_char_digit. cbn [more_digits]. by rewrite Hd, Hv.
Qed.

(** Reading back the digits that were written. *)
Lemma digits_of_S fuel n tail :
  digits_of (S fuel) n tail =
    if n <? 10 then String (digit_char (n mod 10)) tail
    else digits_of fuel (n / 10) (String (digit_char (n mod 10)) tail).
Proof. reflexivity. Qed.

Lemma more_digits_digits_of fuel n tail acc cnt :
  0 ≤ n < 10 ^ Z.of_nat (S fuel) →
  ∃ len, more_digits acc cnt (digits_of (S fuel) n tail) =
           more_digits (acc * 10 ^ len + n) (cnt + len) tail ∧ 0 < len.
Proof.
  revert n tail. induction fuel as [|fuel IH]; intros n tail Hn.
  - exists 1. rewrite digits_of_S. change (10 ^ Z.of_nat 1) with 10 in Hn.
    rewrite Z.mod_small by lia. rewrite (proj2 (Z.ltb_lt n 10)) by lia.
    rewrite more_digits_digit by lia. split; [|lia].
    by replace (acc * 10 ^ 1 + n) with (10 * acc + n) by lia.
  - rewrite digits_of_S. destruct (Z.ltb_spec n 10) as [Hlt|Hge].
    + exists 1. rewrite Z.mod_small by lia.
      rewrite more_digits_digit by lia. split; [|lia].
      by replace (acc * 10 ^ 1 + n) with (10 * acc + n) by lia.
    + assert (Hdiv : 0 ≤ n / 10 < 10 ^ Z.of_nat (S fuel)).
      { split; [apply Z.div_pos; lia|].
        apply Z.div_lt_upper_bound; [lia|].
        replace (Z.of_nat (S (S fuel))) with (Z.succ (Z.of_nat (S fuel))) in Hn by lia.
        rewrite Z.pow_succ_r in Hn by lia. lia. }
      destruct (IH (n / 10) (String (digit_char (n mod 10)) tail) Hdiv)
        as (len & Hlen & Hpos).
      exists (len + 1). rewrite Hlen.
      rewrite more_digits_digit by (apply Z.mod_pos_bound; lia).
      split; [|lia]. rewrite Z.pow_add_r by lia. change (10 ^ 1) with 10.
      pose proof (Z.div_mod n 10 ltac:(lia)) as Hdm.
      replace (10 * (acc * 10 ^ len + n / 10) + n mod 10)
        with (acc * (10 ^ len * 10) + n) by lia.
      by replace (cnt + len + 1) with (cnt + (len + 1)) by lia.
Qed.

Lemma digit_char_mod n :
  is_digit (digit_char (n mod 10)) = true ∧ Py_ISSPACE (digit_char (n mod 10)) = false.
Proof.
  pose proof (digit_char_digit (n mod 10) ltac:(apply Z.mod_pos_bound; lia)) as [Hd _].
  split; [done|]. unfold is_digit, Py_ISSPACE in *. lia.
Qed.

Lemma digits_of_first fuel n tail :
  ∃ ch rest, digits_of (S fuel) n tail = String ch rest ∧ is_digit ch = true.
Proof.
  revert n tail. induction fuel as [|fuel IH]; intros n tail.
  - exists (digit_char (n mod 10)), tail. rewrite digits_of_S.
    split; [by destruct (n <? 10)|apply digit_char_mod].
  - rewrite digits_of_S. destruct (n <? 10).
    + exists (digit_char (n mod 10)), tail. split; [done|apply digit_char_mod].
    + apply IH.
Qed.

Lemma digits_of_spaceless fuel n tail :
  spaceless tail = true → spaceless (digits_of fuel n tail) = true.
Proof.
  revert n tail. induction fuel as [|fuel IH]; intros n tail Ht; [done|].
  rewrite digits_of_S.
  assert (Ht' : spaceless (String (digit_char (n mod 10)) tail) = true).
  { cbn [spaceless]. by rewrite (proj2 (digit_char_mod n)), Ht. }
  destruct (n <? 10); [done|by apply IH].
Qed.

Lemma strip_spaceless s : spaceless s = true → strip Py_ISSPACE s = s.
Proof.
  intros Hs. unfold strip.
  assert (Hl : lstrip Py_ISSPACE s = s).
  { destruct s as [|a s]; [done|]. cbn [spaceless lstrip] in *.
    by destruct (Py_ISSPACE a). }
  rewrite Hl. clear Hl. induction s as [|a s IH]; [done|].
  cbn [spaceless] in Hs. apply andb_prop in Hs as [Ha Hs]. cbn [rstrip].
  rewrite (IH Hs). destruct s; [|done]. by destruct (Py_ISSPACE a).
Qed.

(** Reading a non-negative integer back from its digits. *)
Lemma digitpart_digits_of n :
  0 ≤ n →
  ∃ cnt, digitpart 0 (digits_of (S (Z.to_nat (Z.log2 n))) n "") = Some (n, cnt, "").
Proof.
  intros Hn. set (fuel := Z.to_nat (Z.log2 n)).
  assert (Hb : 0 ≤ n < 10 ^ Z.of_nat (S fuel)).
  { split; [done|]. destruct (Z.eq_dec n 0) as [->|Hne]; [done|].
    pose proof (Z.log2_spec n ltac:(lia)) as [_ Hlt].
    pose proof (Z.log2_nonneg n).
    replace (Z.of_nat (S fuel)) with (Z.succ (Z.log2 n)) by (unfold fuel; lia).
    eapply Z.lt_le_trans; [exact Hlt|].
    apply Z.pow_le_mono_l. lia. }
  destruct (more_digits_digits_of fuel n "" 0 0 Hb) as (len & Hlen & _).
  destruct (digits_of_first fuel n "") as (ch & rest & E & Hd).
  rewrite E in Hlen |- *. cbn [digitpart]. rewrite Hd.
  cbn [more_digits] in Hlen. rewrite Hd in Hlen.
  replace (10 * 0 + digit_val ch) with (10 * 0 + digit_val ch) in Hlen by done.
  change (0 + 1) with 1 in Hlen. rewrite Hlen. cbn [more_digits].
  exists (0 + len). by rewrite Z.mul_0_l, Z.add_0_l.
Qed.

(** [int(str(n)) == n]. *)
Lemma int_of_str_str_of_int n : int_of_str (str_of_int n) = Some n.
Proof.
  unfold int_of_str, str_of_int. destruct (Z.ltb_spec n 0) as [Hneg|Hpos].
  - rewrite strip_spaceless.
    2:{ cbn [spaceless]. by rewrite digits_of_spaceless. }
    cbn [sign]. destruct (digitpart_digits_of (- n) ltac:(lia)) as [cnt ->].
    f_equal. lia.
  - rewrite strip_spaceless by by apply digits_of_spaceless.
    destruct (digits_of_first (Z.to_nat (Z.log2 n)) n "") as (ch & rest & E & Hd).
    destruct (digitpart_digits_of n Hpos) as [cnt Hp]. rewrite E in Hp |- *.
    assert (Hsign : sign (String ch rest) = (false, String ch rest)).
    { unfold sign. destruct ch as [[] [] [] [] [] [] [] []]; try done; discriminate Hd. }
    by rewrite Hsign, Hp.
Qed.

Lemma str_of_int_nonempty n : str_of_int n ≠ "".
Proof.
  unfold str_of_int. destruct (n <? 0); [done|].
  by destruct (digits_of_first (Z.to_nat (Z.log2 n)) n "") as (ch & rest & -> & _).
Qed.

(** A numeric form field that is filled in is posted as its text. *)
Lemma posted_filled f k s :
  k ∈ coercion_order → f !! k = Some s → s ≠ "" → posted f !! k = Some (PStr s).
Proof.
  intros Hk Hf Hs. unfold posted. apply map_lookup_filter_Some. split.
  - rewrite (form_data_numeric f k Hk). unfold form_get. by rewrite Hf.
  - cbn [snd not_blank]. by apply negb_true_iff, String.eqb_neq.
Qed.

(** X18. Sending back what the form page shows for [alert_enabled] and
    [min_sec_left] stores those two fields as they were shown: the
    [value] texts of the template are read back by the form handler to
    the flag and the integer they were printed from. *)
Theorem html_form_values_round_trip dflt tok req d shown customer_id d' :
  form req !! "alert_enabled" = Some (value_alert_enabled shown) →
  form req !! "min_sec_left" = Some (value_min_sec_left shown) →
  html_post_form dflt tok req d = (Ret customer_id, d') →
  ∃ cfg,
    get_cfg dflt customer_id d' = (Ret cfg, d')
    ∧ alert_enabled cfg = alert_enabled shown
    ∧ min_sec_left cfg = min_sec_left shown.
Proof.
  intros Ha Hs H. pose proof (html_post_form_Ret _ _ _ _ _ _ H) as Hauth.
  rewrite (html_post_form_posted dflt tok req d Hauth) in H. cbv zeta in H.
  destruct (set_cfg _ _ d) as [[cfg|e] d0] eqn:Hset; [|discriminate H].
  pose proof (f_equal fst H) as Hr. pose proof (f_equal snd H) as Hd0.
  cbn [fst snd] in Hr, Hd0. subst d0.
  assert (customer_id = default dflt (form req !! "customer_id")) as -> by congruence.
  exists cfg.
  apply set_cfg_Ret in Hset as (t & old & data & _ & _ & Hdata%PDict_inj & Hfd & ->).
  subst data. split; [apply get_cfg_written|].
  apply from_dict_Ret in Hfd as (_ & _ & _ & H4 & H5).
  rewrite raw_field_union in H4, H5. split.
  - rewrite posted_alert_enabled in H5. rewrite <- H5. unfold form_get. rewrite Ha.
    unfold value_alert_enabled. by destruct (alert_enabled shown).
  - rewrite (posted_filled (form req) "min_sec_left" (value_min_sec_left shown)) in H4.
    + cbn [py_int] in H4. unfold value_min_sec_left in H4.
      rewrite int_of_str_str_of_int in H4. congruence.
    + unfold coercion_order. rewrite !elem_of_cons. tauto.
    + done.
    + apply str_of_int_nonempty.
Qed.

Lemma html_form_values_round_trip_witness :
  let shown := {| ratio := lit_2_0; min_coins := lit_100_0; min_ratio := lit_1_5;
                  min_sec_left := 45; alert_enabled := false |} in
  let req := mkRequest None None None
               {[ "customer_id" := "bob"; "alert_enabled" := "0"; "min_sec_left" := "45" ]} in
  let d' := (html_post_form "DEFAULT" None req NoFile).2 in
  ∃ cfg, get_cfg "DEFAULT" "bob" d' = (Ret cfg, d')
         ∧ alert_enabled cfg = false ∧ min_sec_left cfg = 45.
Proof.
  intros shown req d'.
  exact (html_form_values_round_trip "DEFAULT" None req NoFile shown "bob" d'
           eq_refl eq_refl eq_refl).
Defined.

(** X19. A numeric field left blank in the form, or missing from it,
    keeps its stored value: over a complete stored record, the record an
    accepted form writes has that field as it was. *)
Theorem html_post_form_blank_fields dflt tok req d t c customer_id d' :
  _load_store d = (Ret (PDict t), d) →
  t !! default dflt (form req !! "customer_id") = Some (PDict (asdict c)) →
  html_post_form dflt tok req d = (Ret customer_id, d') →
  ∃ cfg,
    get_cfg dflt customer_id d' = (Ret cfg, d')
    ∧ (form req !! "ratio" = None ∨ form req !! "ratio" = Some "" →
       ratio cfg = ratio c)
    ∧ (form req !! "min_coins" = None ∨ form req !! "min_coins" = Some "" →
       min_coins cfg = min_coins c)
    ∧ (form req !! "min_ratio" = None ∨ form req !! "min_ratio" = Some "" →
       min_ratio cfg = min_ratio c)
    ∧ (form req !! "min_sec_left" = None ∨ form req !! "min_sec_left" = Some "" →
       min_sec_left cfg = min_sec_left c).
Proof.
  intros Ht%loaded_table Hid H. pose proof (html_post_form_Ret _ _ _ _ _ _ H) as Hauth.
  rewrite (html_post_form_posted dflt tok req d Hauth) in H. cbv zeta in H.
  destruct (set_cfg _ _ d) as [[cfg|e] d0] eqn:Hset; [|discriminate H].
  pose proof (f_equal fst H) as Hr. pose proof (f_equal snd H) as Hd0.
  cbn [fst snd] in Hr, Hd0. subst d0.
  assert (customer_id = default dflt (form req !! "customer_id")) as -> by congruence.
  exists cfg.
  apply set_cfg_Ret in Hset as (t0 & old & data & Ht0 & Hold & Hdata%PDict_inj & Hfd & ->).
  subst data. split; [apply get_cfg_written|].
  assert (t0 = t) as -> by congruence.
  rewrite Hid in Hold. cbn [default from_option Datatypes.id] in Hold.
  apply PDict_inj in Hold. subst old.
  apply from_dict_Ret in Hfd as (H1 & H2 & H3 & H4 & _).
  destruct (raw_field_asdict c) as (A1 & A2 & A3 & A4 & _).
  rewrite raw_field_union in H1, H2, H3, H4.
  assert (Hin : ∀ k, k ∈ coercion_order ↔
                     k = "ratio" ∨ k = "min_coins" ∨ k = "min_ratio" ∨ k = "min_sec_left").
  { intros k. unfold coercion_order. rewrite !elem_of_cons, elem_of_nil. tauto. }
  repeat split; intros Hblank.
  - rewrite posted_blank, A1 in H1; [cbn in H1; congruence|apply Hin; tauto|done].
  - rewrite posted_blank, A2 in H2; [cbn in H2; congruence|apply Hin; tauto|done].
  - rewrite posted_blank, A3 in H3; [cbn in H3; congruence|apply Hin; tauto|done].
  - rewrite posted_blank, A4 in H4; [cbn in H4; congruence|apply Hin; tauto|done].
Qed.

Lemma html_post_form_blank_fields_witness :
  let req := mkRequest None None None
               {[ "customer_id" := "DEFAULT"; "ratio" := ""; "min_coins" := "50" ]} in
  let d := File (Ret (PDict table_default_2)) in
  let d' := (html_post_form "DEFAULT" None req d).2 in
  ∃ cfg, get_cfg "DEFAULT" "DEFAULT" d' = (Ret cfg, d') ∧ ratio cfg = lit_2_0.
Proof.
  intros req d d'.
  destruct (html_post_form_blank_fields "DEFAULT" None req d table_default_2 cfg_ratio_2
              "DEFAULT" d' eq_refl eq_refl eq_refl) as (cfg & Hget & Hratio & _).
  exists cfg. split; [exact Hget|]. apply Hratio. by right.
Defined.
